(** * firewall.functions: port, address and interface validators

    A shallow embedding of the validation helpers of
    [src/firewall/functions.py] together with the properties the
    specification states about them.

    Conventions of the embedding:
    - a Python [int] is a [Z] (unbounded);
    - a Python [str] is a [string] whose characters are code points
      below 256; the built-ins follow Python 3 ([int] accepts a sign,
      surrounding white space and single underscores between digits;
      the interpreter's optional cap on the number of digits is left
      out; the white space [int] drops is not quite that of
      [str.strip]);
    - a value that is "an int or a str" is a [port_arg];
    - a function that can leave through an exception returns a
      [result];
    - the operating system's service database and the C library's
      address parser are parameters of the development. *)

From Stdlib Require Import ZArith List String Ascii Bool Lia.
Import ListNotations.

Local Open Scope string_scope.
Local Open Scope Z_scope.

(** ** Python exceptions *)

Inductive exn : Type :=
| TypeError
| ValueError
| SocketError.

Inductive result (A : Type) : Type :=
| Return (a : A)
| Raise (e : exn).

Arguments Return {A} a.
Arguments Raise {A} e.

Definition bind {A B : Type} (m : result A) (k : A -> result B) : result B :=
  match m with
  | Return a => k a
  | Raise e => Raise e
  end.

Notation "x <- m ;; k" := (bind m (fun x => k))
  (at level 61, m at next level, right associativity).

(** ** The Python built-ins the module relies on *)

Module Py.

Definition code (c : ascii) : Z := Z.of_N (N_of_ascii c).

(** [str.isspace] on one character, for code points below 256. *)
Definition isspace (c : ascii) : bool :=
  let n := code c in
  ((9 <=? n) && (n <=? 13)) || ((28 <=? n) && (n <=? 32))
  || (n =? 133) || (n =? 160).

Definition isdigit (c : ascii) : bool :=
  let n := code c in (48 <=? n) && (n <=? 57).

Definition digit_value (c : ascii) : Z := code c - 48.

Definition digit_char (d : Z) : ascii := ascii_of_N (Z.to_N (48 + d)).

(** [c in s] for a one-character [c]. *)
Fixpoint contains (c : ascii) (s : string) : bool :=
  match s with
  | EmptyString => false
  | String d s' => Ascii.eqb d c || contains c s'
  end.

(** [s.index(c)] for a one-character [c]; [None] when Python raises
    [ValueError]. *)
Fixpoint index (c : ascii) (s : string) : option nat :=
  match s with
  | EmptyString => None
  | String d s' =>
      if Ascii.eqb d c then Some O
      else option_map S (index c s')
  end.

(** The slices [s[:k]] and [s[k:]]. *)
Fixpoint slice_to (k : nat) (s : string) : string :=
  match k, s with
  | S k', String c s' => String c (slice_to k' s')
  | _, _ => EmptyString
  end.

Fixpoint slice_from (k : nat) (s : string) : string :=
  match k, s with
  | S k', String _ s' => slice_from k' s'
  | _, _ => s
  end.

Fixpoint lstrip (s : string) : string :=
  match s with
  | String c s' => if isspace c then lstrip s' else s
  | EmptyString => EmptyString
  end.

Fixpoint rstrip (s : string) : string :=
  match s with
  | EmptyString => EmptyString
  | String c s' =>
      match rstrip s' with
      | EmptyString => if isspace c then EmptyString else String c EmptyString
      | r => String c r
      end
  end.

(** [s.strip()] *)
Definition strip (s : string) : string := rstrip (lstrip s).

(** [s.split(sep)] for a one-character separator. *)
Fixpoint split (sep : ascii) (s : string) : list string :=
  match s with
  | EmptyString => [EmptyString]
  | String c s' =>
      if Ascii.eqb c sep then EmptyString :: split sep s'
      else match split sep s' with
           | h :: t => String c h :: t
           | [] => [String c EmptyString]
           end
  end.

(** [sep.join(l)] *)
Definition join (sep : string) (l : list string) : string :=
  String.concat sep l.

(** The digits of a decimal literal after its first digit: digits, each
    optionally preceded by a single underscore. *)
Fixpoint int_digits (s : string) (acc : Z) : option Z :=
  match s with
  | EmptyString => Some acc
  | String c s' =>
      if isdigit c then int_digits s' (10 * acc + digit_value c)
      else if Ascii.eqb c "_" then
        match s' with
        | String d _ => if isdigit d then int_digits s' acc else None
        | EmptyString => None
        end
      else None
  end.

(** An unsigned decimal literal: it starts with a digit. *)
Definition int_unsigned (s : string) : option Z :=
  match s with
  | String c _ => if isdigit c then int_digits s 0 else None
  | EmptyString => None
  end.

(** White space as [int] skips it around a literal: the blanks of the C
    locale and the two spaces above 127, which [int] turns into blanks
    first.  The separators 28..31, which [str.strip] removes, stay where
    they are and make the literal invalid. *)
Definition int_isspace (c : ascii) : bool :=
  let n := code c in
  ((9 <=? n) && (n <=? 13)) || (n =? 32) || (n =? 133) || (n =? 160).

Fixpoint int_lskip (s : string) : string :=
  match s with
  | String c s' => if int_isspace c then int_lskip s' else s
  | EmptyString => EmptyString
  end.

Fixpoint int_rskip (s : string) : string :=
  match s with
  | EmptyString => EmptyString
  | String c s' =>
      match int_rskip s' with
      | EmptyString =>
          if int_isspace c then EmptyString else String c EmptyString
      | r => String c r
      end
  end.

Definition int_strip (s : string) : string := int_rskip (int_lskip s).

(** [int(s)] for a [str] in base ten: surrounding white space is
    dropped, one sign is allowed; [None] stands for [ValueError]. *)
Definition int (s : string) : option Z :=
  match int_strip s with
  | EmptyString => None
  | String c s' =>
      if Ascii.eqb c "-" then option_map Z.opp (int_unsigned s')
      else if Ascii.eqb c "+" then int_unsigned s'
      else int_unsigned (String c s')
  end.

(** The decimal digits of a natural number, most significant first,
    put in front of [acc]. *)
Fixpoint digits (fuel : nat) (n : Z) (acc : string) : string :=
  let acc' := String (digit_char (n mod 10)) acc in
  match fuel with
  | O => acc'
  | S fuel' => if n / 10 =? 0 then acc' else digits fuel' (n / 10) acc'
  end.

(** [str(n)], which is also what ["%s" % n] produces. *)
Definition str (n : Z) : string :=
  if n <? 0 then String "-" (digits (Z.to_nat (Z.log2 (- n))) (- n) EmptyString)
  else digits (Z.to_nat (Z.log2 n)) n EmptyString.

(** [max] of a sequence of integers; the empty sequence raises
    [ValueError]. *)
Definition max (l : list Z) : result Z :=
  match l with
  | [] => Raise ValueError
  | x :: l' => Return (fold_left Z.max l' x)
  end.

(** [s[-k:]] for a positive [k]: the last [k] characters, the whole of
    [s] when it is shorter. *)
Definition suffix (k : nat) (s : string) : string :=
  slice_from (String.length s - k) s.

(** The constants of the module [string]. *)
Definition hexdigits : string := "0123456789abcdefABCDEF".

Definition ascii_letters : string :=
  "abcdefghijklmnopqrstuvwxyzABCDEFGHIJKLMNOPQRSTUVWXYZ".

Definition decimal_digits : string := "0123456789".

End Py.

(** ** Values passed to and returned by the port functions *)

(** A port argument is a Python [int] or a Python [str]. *)
Inductive port_arg : Type :=
| PInt (n : Z)
| PStr (s : string).

(** The tuples [getPortRange] builds: [(id,)] and [(id1, id2)]. *)
Inductive port_tuple : Type :=
| Tuple1 (id : Z)
| Tuple2 (id1 id2 : Z).

(** What [getPortRange] returns: an [int] code, [None], or a tuple. *)
Inductive range_result : Type :=
| RInt (code : Z)
| RNone
| RTuple (t : port_tuple).

Definition tuple_len (t : port_tuple) : Z :=
  match t with
  | Tuple1 _ => 1
  | Tuple2 _ _ => 2
  end.

(** The four messages [check_port] hands to [log.debug2]. *)
Inductive debug_msg : Type :=
| PortTooBig (port : port_arg)
| PortInvalid (port : port_arg)
| PortAmbiguous (port : port_arg)
| RangeStartGeEnd (port : port_arg).

Inductive address_family : Type :=
| AF_INET
| AF_INET6.

(** ** The functions of [firewall/functions.py] *)

Section Functions.

(** [socket.getservbyname(name)]: the port the system's service
    database gives for [name]; [None] when the call raises (the caller
    catches every exception). *)
Variable getservbyname : string -> option Z.

(** The C library's [inet_pton]: [true] when it converts the address. *)
Variable libc_inet_pton : address_family -> string -> bool.

(** [firewall.core.base.SHORTCUTS], a dict from chain names to their
    shortcuts, as the list of its items. *)
Variable SHORTCUTS : list (string * string).

Definition getPortID (port : port_arg) : Z :=
  let check (id : Z) := if id >? 65535 then -2 else id in
  match port with
  | PInt n => check n
  | PStr s =>
      let port := match s with
                  | EmptyString => s
                  | _ => Py.strip s
                  end in
      match Py.int port with
      | Some id => check id
      | None =>
          match getservbyname port with
          | Some id => check id
          | None => -1
          end
      end
  end.

(** One turn of the loop of [getPortRange] for index [i]; the second
    component is [true] when the loop is left through [break]. *)
Definition getPortRange_step (splits : list string) (i : nat)
    (matched : list port_tuple) : list port_tuple * bool :=
  let id1 := getPortID (PStr (Py.join "-" (firstn i splits))) in
  let port2 := Py.join "-" (skipn i splits) in
  if (0 <? String.length port2)%nat then
    let id2 := getPortID (PStr port2) in
    if (id1 >=? 0) && (id2 >=? 0) then
      if id1 <? id2 then ((matched ++ [Tuple2 id1 id2])%list, false)
      else if id1 >? id2 then ((matched ++ [Tuple2 id2 id1])%list, false)
      else ((matched ++ [Tuple1 id1])%list, false)
    else (matched, false)
  else
    if id1 >=? 0 then
      ((matched ++ [Tuple1 id1])%list, (i =? List.length splits)%nat)
    else (matched, false).

(** [for i in range(len(splits), 0, -1)], from index [i] downwards. *)
Fixpoint getPortRange_loop (splits : list string) (i : nat)
    (matched : list port_tuple) : list port_tuple :=
  match i with
  | O => matched
  | S i' =>
      let (matched', stop) := getPortRange_step splits i matched in
      if stop then matched' else getPortRange_loop splits i' matched'
  end.

Definition getPortRange (ports : port_arg) : range_result :=
  match ports with
  | PInt _ =>
      let id := getPortID ports in
      if id >=? 0 then RTuple (Tuple1 id) else RInt id
  | PStr s =>
      let splits := Py.split "-" s in
      let matched := getPortRange_loop splits (List.length splits) [] in
      match matched with
      | [] => RInt (-1)
      | [t] => RTuple t
      | _ => RNone
      end
  end.

(** [portStr] returns a [str] or [None]; [len] of an [int] or of [None]
    raises [TypeError]. *)
Definition portStr (port : port_arg) (delimiter : string)
    : result (option string) :=
  match port with
  | PStr EmptyString => Return (Some EmptyString)
  | _ =>
      let range := getPortRange port in
      match range with
      | RInt n =>
          if n <? 0 then Return None else Raise TypeError
      | RNone => Raise TypeError
      | RTuple (Tuple1 id) => Return (Some (Py.str id))
      | RTuple (Tuple2 id1 id2) =>
          Return (Some (Py.str id1 ++ delimiter ++ Py.str id2))
      end
  end.

(** [socket.inet_pton]: a NUL in the argument raises [ValueError] before
    the C library is called; a failed conversion raises [socket.error]. *)
Definition inet_pton (af : address_family) (ip : string) : result unit :=
  if Py.contains "000" ip then Raise ValueError
  else if libc_inet_pton af ip then Return tt
  else Raise SocketError.

Definition checkIP (ip : string) : result bool :=
  match inet_pton AF_INET ip with
  | Return _ => Return true
  | Raise SocketError => Return false
  | Raise e => Raise e
  end.

Definition checkIP6 (ip : string) : result bool :=
  match inet_pton AF_INET6 ip with
  | Return _ => Return true
  | Raise SocketError => Return false
  | Raise e => Raise e
  end.

(** The first lines of [checkIPnMask] and [checkIP6nMask]: the address
    and the mask, [None] when there is no ["/"]. *)
Definition split_mask (ip : string) : string * option string :=
  match Py.index "/" ip with
  | Some k => (Py.slice_to k ip, Some (Py.slice_from (k + 1) ip))
  | None => (ip, None)
  end.

Definition checkIPnMask (ip : string) : result bool :=
  let (addr, mask) := split_mask ip in
  ok <- checkIP addr ;;
  if negb ok then Return false
  else
    match mask with
    | None | Some EmptyString => Return true
    | Some mask =>
        ok' <- (if Py.contains "." mask then checkIP addr
                else Return false) ;;
        if ok' then Return false
        else
          match Py.int mask with
          | None => Return false
          | Some i =>
              if (i <? 0) || (i >? 32) then Return false
              else Return true
          end
    end.

Definition checkIP6nMask (ip : string) : result bool :=
  let (addr, mask) := split_mask ip in
  ok <- checkIP6 addr ;;
  if negb ok then Return false
  else
    match mask with
    | None | Some EmptyString => Return true
    | Some mask =>
        match Py.int mask with
        | None => Return false
        | Some i =>
            if (i <? 0) || (i >? 128) then Return false
            else Return true
        end
    end.

Definition checkInterface (iface : string) : bool :=
  match iface with
  | EmptyString => false
  | _ =>
      if (16 <? String.length iface)%nat then false
      else if existsb (fun ch => Py.contains ch iface)
                      [" "; "/"; "!"; "*"]%char
      then false
      else true
  end.

(** [check_port] returns its verdict; the second component lists what it
    passed to [log.debug2]. *)
Definition check_port (port : port_arg)
    : result (bool * list debug_msg) :=
  match getPortRange port with
  | RInt n =>
      if n =? -2 then Return (false, [PortTooBig port])
      else if n =? -1 then Return (false, [PortInvalid port])
      else Raise TypeError
  | RNone => Return (false, [PortAmbiguous port])
  | RTuple t =>
      if (tuple_len t =? 2)
         && match t with
            | Tuple2 id1 id2 => id1 >=? id2
            | Tuple1 _ => false
            end
      then Return (false, [RangeStartGeEnd port])
      else Return (true, [])
  end.

Definition max_zone_name_len : result Z :=
  longest_shortcut <-
    Py.max (map (fun v => Z.of_nat (String.length v)) (map snd SHORTCUTS)) ;;
  Return (28 - (longest_shortcut + Z.of_nat (String.length "__allow"))).

End Functions.

(** ** Strings of digits *)

(** [all(p(c) for c in s)] *)
Fixpoint all_chars (p : ascii -> bool) (s : string) : bool :=
  match s with
  | EmptyString => true
  | String c s' => p c && all_chars p s'
  end.

(** A string made of decimal digits only. *)
Definition all_digits (s : string) : bool := all_chars Py.isdigit s.

(** The number a string of digits denotes, read after the digits that
    gave [acc]. *)
Fixpoint decimal (s : string) (acc : Z) : Z :=
  match s with
  | EmptyString => acc
  | String c s' => decimal s' (10 * acc + Py.digit_value c)
  end.

(** [s] is the canonical decimal numeral of the natural number [n]:
    digits only, the value [n], and no leading zero except in ["0"]. *)
Definition canonical_decimal (s : string) (n : Z) : Prop :=
  s <> EmptyString
  /\ all_digits s = true
  /\ decimal s 0 = n
  /\ (forall s', s = String "0" s' -> s' = EmptyString).

(** ** The other validators of [firewall/functions.py] *)

(** [int(v)] for an [int] or a [str]; [None] stands for [ValueError]. *)
Definition int_arg (v : port_arg) : option Z :=
  match v with
  | PInt n => Some n
  | PStr s => Py.int s
  end.

Section Validators.

(** [socket.getservbyport(port, proto)]: the name the service database
    gives; [None] when the call raises (the caller catches everything). *)
Variable getservbyport : Z -> string -> option string.

(** [socket.getprotobyname(name)]: [true] when the call returns. *)
Variable getprotobyname : string -> bool.

Variable libc_inet_pton : address_family -> string -> bool.

(** [os.sysconf('SC_LOGIN_NAME_MAX')] *)
Variable SC_LOGIN_NAME_MAX : Z.

Definition getServiceName (port : port_arg) (proto : string) : option string :=
  match int_arg port with
  | Some n => getservbyport n proto
  | None => None
  end.

Definition checkProtocol (protocol : port_arg) : bool :=
  match int_arg protocol with
  | None =>
      match protocol with
      | PStr s => getprotobyname s
      | PInt _ => false
      end
  | Some i => if (i <? 0) || (i >? 255) then false else true
  end.

Definition check_address (ipv source : string) : result bool :=
  if String.eqb ipv "ipv4" then checkIPnMask libc_inet_pton source
  else if String.eqb ipv "ipv6" then checkIP6nMask libc_inet_pton source
  else Return false.

Definition check_single_address (ipv source : string) : result bool :=
  if String.eqb ipv "ipv4" then checkIP libc_inet_pton source
  else if String.eqb ipv "ipv6" then checkIP6 libc_inet_pton source
  else Return false.

(** [mac[i] == ch]; an index out of range compares as unequal (the
    length test rules it out). *)
Definition char_at_is (mac : string) (p : ascii -> bool) (i : nat) : bool :=
  match String.get i mac with
  | Some c => p c
  | None => false
  end.

Definition check_mac (mac : string) : bool :=
  if (String.length mac =? 12 + 5)%nat then
    if negb (forallb (char_at_is mac (fun c => Ascii.eqb c ":"))
               [2; 5; 8; 11; 14]%nat)
    then false
    else if negb (forallb (char_at_is mac (fun c => Py.contains c Py.hexdigits))
                    [0; 1; 3; 4; 6; 7; 9; 10; 12; 13; 15; 16]%nat)
    then false
    else true
  else false.

(** The test of the loop of [checkUser]: [c] is no letter, no digit and
    none of the four signs. *)
Definition bad_user_char (c : ascii) : bool :=
  negb (Py.contains c Py.ascii_letters)
  && negb (Py.contains c Py.decimal_digits)
  && negb (existsb (Ascii.eqb c) ["."; "-"; "_"; "$"]%char).

Definition checkUser (user : string) : bool :=
  if (Z.of_nat (String.length user) <? 1)
     || (Z.of_nat (String.length user) >? SC_LOGIN_NAME_MAX)
  then false
  else all_chars (fun c => negb (bad_user_char c)) user.

Definition checkUid (uid : port_arg) : bool :=
  match int_arg uid with
  | None => false
  | Some n => if (n >=? 0) && (n <=? 2 ^ 31 - 1) then true else false
  end.

Definition checkCommand (command : string) : bool :=
  if (String.length command <? 1)%nat || (1024 <? String.length command)%nat
  then false
  else if existsb (fun ch => Py.contains ch command) ["|"; "010"; "000"]%char
  then false
  else
    match command with
    | String c _ => if negb (Ascii.eqb c "/") then false else true
    | EmptyString => false
    end.

Definition checkContext (context : string) : bool :=
  let splits := Py.split ":" context in
  let field (i : nat) := nth i splits EmptyString in
  if negb (existsb (Nat.eqb (List.length splits)) [4; 5]%nat) then false
  else if negb (String.eqb (field 0%nat) "root")
          && negb (String.eqb (Py.suffix 2 (field 0%nat)) "_u")
  then false
  else if negb (String.eqb (Py.suffix 2 (field 1%nat)) "_r") then false
  else if negb (String.eqb (Py.suffix 2 (field 2%nat)) "_t") then false
  else if (String.length (field 3%nat) <? 1)%nat then false
  else true.

End Validators.

(** [uniqify] for a list whose items are compared by [eqb]. *)
Section Uniqify.

Variable A : Type.
Variable eqb : A -> A -> bool.

Fixpoint uniqify_loop (input output : list A) : list A :=
  match input with
  | [] => output
  | x :: input' =>
      uniqify_loop input'
        (if negb (existsb (fun y => eqb y x) output)
         then (output ++ [x])%list
         else output)
  end.

Definition uniqify (input : list A) : list A := uniqify_loop input [].

(** The items of a list at their first occurrence. *)
Fixpoint first_occurrences (l : list A) : list A :=
  match l with
  | [] => []
  | x :: l' => x :: filter (fun y => negb (eqb y x)) (first_occurrences l')
  end.

End Uniqify.

Arguments uniqify {A} eqb input.
Arguments uniqify_loop {A} eqb input output.
Arguments first_occurrences {A} eqb l.

(** ** A reference environment

    One concrete choice of the three parameters, used to run the functions
    on examples: a services table in the style of [/etc/services], a
    recogniser of textual addresses, and the shortcuts of the chains. *)

Module Env.

(** The last four entries are local additions of the kind an
    administrator makes. *)
Definition services : list (string * Z) :=
  [ ("ftp-data", 20); ("ftp", 21); ("ssh", 22); ("smtp", 25);
    ("http", 80); ("https", 443);
    ("x11", 6000); ("x11-1", 6001); ("x11-2", 6002);
    ("app", 7001); ("app-db", 7002); ("db-admin", 7003);
    ("admin", 7004) ].

Fixpoint lookup (name : string) (table : list (string * Z)) : option Z :=
  match table with
  | [] => None
  | (k, v) :: table' => if String.eqb k name then Some v else lookup name table'
  end.

Definition getservbyname (name : string) : option Z := lookup name services.

(** One part of a dotted quad: one to three digits, no leading zero,
    at most 255. *)
Definition octet (s : string) : bool :=
  all_chars Py.isdigit s
  && (1 <=? String.length s)%nat && (String.length s <=? 3)%nat
  && (decimal s 0 <=? 255)
  && match s with
     | String "0" (String _ _) => false
     | _ => true
     end.

Definition inet4 (s : string) : bool :=
  let parts := Py.split "." s in
  (List.length parts =? 4)%nat && forallb octet parts.

Definition ishex (c : ascii) : bool :=
  let n := Py.code c in
  Py.isdigit c || ((97 <=? n) && (n <=? 102)) || ((65 <=? n) && (n <=? 70)).

Definition hextet (s : string) : bool :=
  all_chars ishex s
  && (1 <=? String.length s)%nat && (String.length s <=? 4)%nat.

(** A leading ["::"] leaves two empty parts in front; one is dropped.
    A single leading [":"] is refused. *)
Definition drop_edge (parts : list string) : option (list string) :=
  match parts with
  | EmptyString :: EmptyString :: rest => Some (EmptyString :: rest)
  | EmptyString :: _ => None
  | _ => Some parts
  end.

Definition is_empty (s : string) : bool :=
  match s with
  | EmptyString => true
  | _ => false
  end.

(** Groups of hexadecimal digits separated by [":"], with at most one
    ["::"]; the last field may be a dotted quad, which stands for two
    groups.  The fields are looked at from the last one backwards. *)
Definition inet6 (s : string) : bool :=
  match drop_edge (Py.split ":" s) with
  | None => false
  | Some p1 =>
      match drop_edge (rev p1) with
      | None => false
      | Some p2 =>
          let (quad, fields) :=
            match p2 with
            | last :: before => if inet4 last then (2%nat, before) else (O, p2)
            | [] => (O, p2)
            end in
          let gaps := List.length (filter is_empty fields) in
          let groups := filter (fun g => negb (is_empty g)) fields in
          let count := (List.length groups + quad)%nat in
          forallb hextet groups
          && (((gaps =? 0)%nat && (count =? 8)%nat)
              || ((gaps =? 1)%nat && (count <=? 7)%nat))
      end
  end.

Definition libc_inet_pton (af : address_family) (s : string) : bool :=
  match af with
  | AF_INET => inet4 s
  | AF_INET6 => inet6 s
  end.

Definition SHORTCUTS : list (string * string) :=
  [ ("PREROUTING", "PRE"); ("POSTROUTING", "POST"); ("INPUT", "IN");
    ("FORWARD_IN", "FWDI"); ("FORWARD_OUT", "FWDO"); ("OUTPUT", "OUT") ].

Fixpoint lookup_port (port : Z) (table : list (string * Z)) : option string :=
  match table with
  | [] => None
  | (k, v) :: table' => if v =? port then Some k else lookup_port port table'
  end.

Definition getservbyport (port : Z) (proto : string) : option string :=
  if String.eqb proto "tcp" then lookup_port port services else None.

Definition getprotobyname (name : string) : bool :=
  existsb (String.eqb name) ["ip"; "icmp"; "tcp"; "udp"; "sctp"].

Definition SC_LOGIN_NAME_MAX : Z := 256.

End Env.

(** ** Notions the specification uses *)

(** The text [getPortID] hands to [int] and to the service database. *)
Definition token_text (s : string) : string :=
  match s with
  | EmptyString => s
  | _ => Py.strip s
  end.

(** [resolves db port id]: [port] denotes the numeric id [id], as an
    integer, as a decimal literal, or as a name of the service database. *)
Inductive resolves (db : string -> option Z) : port_arg -> Z -> Prop :=
| resolves_int n :
    resolves db (PInt n) n
| resolves_literal s n :
    Py.int (token_text s) = Some n ->
    resolves db (PStr s) n
| resolves_service s n :
    Py.int (token_text s) = None ->
    db (token_text s) = Some n ->
    resolves db (PStr s) n.

(** The whole string is a name of the service database, with a port in
    the range the database can hold. *)
Definition service_name (db : string -> option Z) (s : string) (id : Z) : Prop :=
  Py.int (token_text s) = None
  /\ db (token_text s) = Some id
  /\ 0 <= id <= 65535.

(** Cutting the string at its [i]-th hyphen leaves two parts that both
    resolve to valid ids. *)
Definition valid_split (db : string -> option Z) (s : string) (i : nat) : Prop :=
  let splits := Py.split "-" s in
  (0 < i < List.length splits)%nat
  /\ 0 <= getPortID db (PStr (Py.join "-" (firstn i splits)))
  /\ 0 <= getPortID db (PStr (Py.join "-" (skipn i splits))).

(** A tuple as [getPortRange] should build it: the lower id first. *)
Definition ordered (t : port_tuple) : Prop :=
  match t with
  | Tuple1 _ => True
  | Tuple2 id1 id2 => id1 < id2
  end.

(** The characters an interface name must not contain. *)
Definition forbidden_in_interface : list ascii := [" "; "/"; "!"; "*"]%char.

(** [longest items n]: the longest value of the dict has length [n]. *)
Definition longest (items : list (string * string)) (n : Z) : Prop :=
  (exists k v, In (k, v) items /\ Z.of_nat (String.length v) = n)
  /\ (forall k v, In (k, v) items -> Z.of_nat (String.length v) <= n).

(** The mask part of an address is in order: there is none, it is empty,
    or it is an integer from 0 to [width]. *)
Definition mask_ok (width : Z) (mask : option string) : Prop :=
  match mask with
  | None => True
  | Some m => m = EmptyString \/ exists i, Py.int m = Some i /\ 0 <= i <= width
  end.

(** Every id of the tuple is a port number. *)
Definition valid_ids (t : port_tuple) : Prop :=
  match t with
  | Tuple1 id => 0 <= id <= 65535
  | Tuple2 id1 id2 => 0 <= id1 <= 65535 /\ 0 <= id2 <= 65535
  end.

(** No white space anywhere in the string. *)
Definition no_space (s : string) : bool :=
  all_chars (fun c => negb (Py.isspace c)) s.

(** A letter, by its code. *)
Definition is_letter (c : ascii) : bool :=
  let n := Py.code c in
  ((65 <=? n) && (n <=? 90)) || ((97 <=? n) && (n <=? 122)).

(** A hexadecimal digit, by its code. *)
Definition is_hexdigit (c : ascii) : bool :=
  let n := Py.code c in
  ((48 <=? n) && (n <=? 57)) || ((97 <=? n) && (n <=? 102))
  || ((65 <=? n) && (n <=? 70)).

(** Two hexadecimal digits. *)
Definition hex_pair (s : string) : bool :=
  (String.length s =? 2)%nat && all_chars is_hexdigit s.

(** A character [checkUser] lets through, by its code: a letter, a digit
    or one of [.], [-], [_], [$]. *)
Definition user_code_ok (c : ascii) : bool :=
  let n := Py.code c in
  is_letter c || Py.isdigit c
  || (n =? 46) || (n =? 45) || (n =? 95) || (n =? 36).

(** * Properties *)

(** ** Strings *)

Lemma split_not_nil (sep : ascii) (s : string) : Py.split sep s <> [].
Proof.
  destruct s as [|c s]; simpl; [discriminate|].
  destruct (Ascii.eqb c sep); [discriminate|].
  destruct (Py.split sep s); discriminate.
Qed.

Lemma join_split (sep : ascii) (s : string) :
  Py.join (String sep EmptyString) (Py.split sep s) = s.
Proof.
  unfold Py.join.
  induction s as [|c s IH]; simpl; [reflexivity|].
  destruct (Ascii.eqb_spec c sep) as [->|Hne].
  - pose proof (split_not_nil sep s) as Hnn.
    destruct (Py.split sep s) as [|h t] eqn:E; [contradiction|].
    change (String.concat (String sep "") ("" :: h :: t))
      with (String sep (String.concat (String sep "") (h :: t))).
    now rewrite IH.
  - pose proof (split_not_nil sep s) as Hnn.
    destruct (Py.split sep s) as [|h t] eqn:E; [contradiction|].
    destruct t as [|h' t]; simpl in *; now rewrite <- IH.
Qed.

Lemma firstn_length_all {A : Type} (l : list A) : firstn (List.length l) l = l.
Proof. apply firstn_all. Qed.

Lemma skipn_length_all {A : Type} (l : list A) : skipn (List.length l) l = [].
Proof. apply skipn_all. Qed.

(** ** Characters and decimal numerals *)

Lemma isdigit_code (c : ascii) :
  Py.isdigit c = true <-> 48 <= Py.code c <= 57.
Proof. unfold Py.isdigit. rewrite andb_true_iff, !Z.leb_le. reflexivity. Qed.

Lemma isdigit_not_space (c : ascii) : Py.isdigit c = true -> Py.isspace c = false.
Proof.
  rewrite isdigit_code. unfold Py.isspace. intros Hc.
  repeat (apply orb_false_intro);
    try (apply andb_false_iff; rewrite !Z.leb_gt; lia);
    apply Z.eqb_neq; lia.
Qed.

Lemma isdigit_neq (c d : ascii) :
  Py.isdigit c = true -> Py.isdigit d = false -> Ascii.eqb c d = false.
Proof.
  intros Hc Hd. destruct (Ascii.eqb_spec c d) as [->|]; congruence.
Qed.

Lemma digit_char_spec (d : Z) :
  0 <= d < 10 ->
  Py.isdigit (Py.digit_char d) = true /\ Py.digit_value (Py.digit_char d) = d.
Proof.
  intros Hd.
  assert (H : d = 0 \/ d = 1 \/ d = 2 \/ d = 3 \/ d = 4 \/ d = 5 \/ d = 6
              \/ d = 7 \/ d = 8 \/ d = 9) by lia.
  repeat (destruct H as [->|H]); try subst d; split; reflexivity.
Qed.

Lemma all_chars_app (p : ascii -> bool) (a b : string) :
  all_chars p (a ++ b) = all_chars p a && all_chars p b.
Proof.
  induction a as [|c a IH]; simpl; [reflexivity|].
  now rewrite IH, andb_assoc.
Qed.

Lemma all_chars_impl (p q : ascii -> bool) (s : string) :
  (forall c, p c = true -> q c = true) ->
  all_chars p s = true -> all_chars q s = true.
Proof.
  intros Hpq. induction s as [|c s IH]; simpl; [reflexivity|].
  rewrite !andb_true_iff. intros [Hc Hs]. split; auto.
Qed.

Lemma all_chars_not_contains (p : ascii -> bool) (c : ascii) (s : string) :
  p c = false -> all_chars p s = true -> Py.contains c s = false.
Proof.
  intros Hc. induction s as [|d s IH]; simpl; [reflexivity|].
  rewrite andb_true_iff. intros [Hd Hs]. rewrite (IH Hs), orb_false_r.
  destruct (Ascii.eqb_spec d c) as [->|]; congruence.
Qed.

Lemma all_digits_cons (c : ascii) (s : string) :
  all_digits (String c s) = true <-> Py.isdigit c = true /\ all_digits s = true.
Proof. unfold all_digits. cbn [all_chars]. apply andb_true_iff. Qed.

(** White space is only taken off the two ends. *)
Lemma lstrip_head (c : ascii) (s : string) :
  Py.isspace c = false -> Py.lstrip (String c s) = String c s.
Proof. intros H. simpl. now rewrite H. Qed.

Lemma rstrip_no_space (s : string) :
  all_chars (fun c => negb (Py.isspace c)) s = true -> Py.rstrip s = s.
Proof.
  induction s as [|c s IH]; simpl; [reflexivity|].
  rewrite andb_true_iff, negb_true_iff. intros [Hc Hs].
  rewrite (IH Hs). destruct s; [now rewrite Hc | reflexivity].
Qed.

Lemma strip_no_space (s : string) :
  all_chars (fun c => negb (Py.isspace c)) s = true -> Py.strip s = s.
Proof.
  intros H. unfold Py.strip.
  destruct s as [|c s]; [reflexivity|].
  pose proof H as H'. simpl in H'.
  rewrite andb_true_iff, negb_true_iff in H'. destruct H' as [Hc _].
  rewrite (lstrip_head _ _ Hc). now apply rstrip_no_space.
Qed.

Lemma int_isspace_isspace (c : ascii) :
  Py.isspace c = false -> Py.int_isspace c = false.
Proof.
  unfold Py.isspace, Py.int_isspace. intros H.
  apply orb_false_iff in H. destruct H as [H H160].
  apply orb_false_iff in H. destruct H as [H H133].
  apply orb_false_iff in H. destruct H as [H9 H28].
  rewrite H9, H133, H160, !orb_false_r. cbn [orb].
  apply andb_false_iff in H28. apply Z.eqb_neq.
  rewrite !Z.leb_gt in H28. lia.
Qed.

Lemma int_lskip_head (c : ascii) (s : string) :
  Py.int_isspace c = false -> Py.int_lskip (String c s) = String c s.
Proof. intros H. cbn [Py.int_lskip]. now rewrite H. Qed.

Lemma int_rskip_head (c : ascii) (s : string) :
  Py.int_isspace c = false -> exists r, Py.int_rskip (String c s) = String c r.
Proof.
  intros Hc. cbn [Py.int_rskip].
  destruct (Py.int_rskip s) as [|d r]; [rewrite Hc|]; eauto.
Qed.

Lemma int_rskip_no_space (s : string) :
  all_chars (fun c => negb (Py.isspace c)) s = true -> Py.int_rskip s = s.
Proof.
  induction s as [|c s IH]; cbn [all_chars Py.int_rskip]; [reflexivity|].
  rewrite andb_true_iff, negb_true_iff. intros [Hc Hs].
  rewrite (IH Hs). destruct s; [|reflexivity].
  now rewrite (int_isspace_isspace c Hc).
Qed.

(** [int] finds nothing to drop around a text without white space. *)
Lemma int_strip_no_space (s : string) :
  all_chars (fun c => negb (Py.isspace c)) s = true -> Py.int_strip s = s.
Proof.
  intros H. unfold Py.int_strip.
  destruct s as [|c s]; [reflexivity|].
  pose proof H as H'. cbn [all_chars] in H'.
  rewrite andb_true_iff, negb_true_iff in H'. destruct H' as [Hc _].
  rewrite (int_lskip_head _ _ (int_isspace_isspace c Hc)).
  now apply int_rskip_no_space.
Qed.

Lemma token_text_no_space (s : string) :
  all_chars (fun c => negb (Py.isspace c)) s = true -> token_text s = s.
Proof.
  intros H. destruct s; [reflexivity|]. now apply strip_no_space.
Qed.

Lemma digits_no_space (s : string) :
  all_digits s = true -> all_chars (fun c => negb (Py.isspace c)) s = true.
Proof.
  apply all_chars_impl. intros c Hc.
  now rewrite (isdigit_not_space c Hc).
Qed.

(** [int] on a string of digits. *)
Lemma int_digits_all_digits (s : string) :
  all_digits s = true -> forall acc, Py.int_digits s acc = Some (decimal s acc).
Proof.
  unfold all_digits.
  induction s as [|c s IH]; simpl; [reflexivity|].
  rewrite andb_true_iff. intros [Hc Hs] acc.
  rewrite Hc. now apply IH.
Qed.

Lemma int_unsigned_head (c : ascii) (s : string) :
  Py.isdigit c = true ->
  Py.int (String c s) =
    match Py.int_strip (String c s) with
    | EmptyString => None
    | t => Py.int_unsigned t
    end.
Proof.
  intros Hc. unfold Py.int, Py.int_strip.
  pose proof (int_isspace_isspace c (isdigit_not_space c Hc)) as Hns.
  rewrite (int_lskip_head c s Hns).
  destruct (int_rskip_head c s Hns) as [r ->].
  rewrite !(isdigit_neq c) by (assumption || reflexivity). reflexivity.
Qed.

Lemma int_all_digits (s : string) :
  s <> EmptyString -> all_digits s = true -> Py.int s = Some (decimal s 0).
Proof.
  intros Hne Hs. destruct s as [|c s]; [contradiction|].
  destruct (proj1 (all_digits_cons c s) Hs) as [Hc _].
  rewrite (int_unsigned_head c s Hc).
  rewrite (int_strip_no_space _ (digits_no_space _ Hs)).
  unfold Py.int_unsigned. rewrite Hc.
  now apply int_digits_all_digits.
Qed.

(** A digit followed by a hyphen is not a decimal literal. *)
Lemma int_digits_hyphen (a rest : string) :
  all_digits a = true ->
  forall acc, Py.int_digits (a ++ String "-" rest) acc = None.
Proof.
  unfold all_digits.
  induction a as [|c a IH]; simpl; [reflexivity|].
  rewrite andb_true_iff. intros [Hc Ha] acc. rewrite Hc. now apply IH.
Qed.

Lemma int_range_text (a b : string) :
  a <> EmptyString -> all_digits a = true -> all_digits b = true ->
  Py.int (a ++ String "-" b) = None.
Proof.
  intros Hne Ha Hb. destruct a as [|c a]; [contradiction|].
  destruct (proj1 (all_digits_cons c a) Ha) as [Hc Ha'].
  change (String c a ++ String "-" b) with (String c (a ++ String "-" b)).
  rewrite (int_unsigned_head c _ Hc).
  assert (Hns : all_chars (fun c => negb (Py.isspace c))
                  (String c (a ++ String "-" b)) = true).
  { change (String c (a ++ String "-" b)) with (String c a ++ String "-" b).
    rewrite all_chars_app. rewrite (digits_no_space _ Ha). simpl.
    now rewrite (digits_no_space _ Hb). }
  rewrite (int_strip_no_space _ Hns).
  unfold Py.int_unsigned. rewrite Hc.
  change (String c (a ++ String "-" b)) with (String c a ++ String "-" b).
  now apply int_digits_hyphen.
Qed.

(** [str] writes the canonical numeral. *)
Lemma decimal_app (a b : string) :
  forall acc, decimal (a ++ b) acc = decimal b (decimal a acc).
Proof. induction a as [|c a IH]; simpl; intros acc; [reflexivity | apply IH]. Qed.

Lemma append_assoc (a b c : string) : (a ++ b) ++ c = a ++ (b ++ c).
Proof. induction a as [|x a IH]; simpl; [reflexivity | now rewrite IH]. Qed.

Lemma append_length (a b : string) :
  String.length (a ++ b) = (String.length a + String.length b)%nat.
Proof. induction a as [|x a IH]; simpl; [reflexivity | now rewrite IH]. Qed.

Lemma digits_one (n : Z) (rest : string) :
  0 <= n < 10 ->
  let ds := String (Py.digit_char (n mod 10)) EmptyString in
  String (Py.digit_char (n mod 10)) rest = ds ++ rest
  /\ ds <> EmptyString
  /\ all_digits ds = true
  /\ (forall acc, decimal ds acc = acc * 10 ^ Z.of_nat (String.length ds) + n)
  /\ (0 < n -> forall t, ds <> String "0" t).
Proof.
  intros Hn ds. subst ds. rewrite (Z.mod_small n 10) by lia.
  destruct (digit_char_spec n Hn) as [Hd Hv].
  split; [reflexivity|]. split; [discriminate|].
  split; [unfold all_digits; simpl; now rewrite Hd|].
  split.
  - intros acc. cbn [decimal String.length]. rewrite Hv.
    change (10 ^ Z.of_nat 1) with 10. lia.
  - intros Hpos t Heq. inversion Heq as [[Hc Ht]].
    rewrite Hc in Hv. vm_compute in Hv. lia.
Qed.

Lemma digits_spec (fuel : nat) :
  forall n rest,
    0 <= n < 10 ^ (Z.of_nat fuel + 1) ->
    exists ds,
      Py.digits fuel n rest = ds ++ rest
      /\ ds <> EmptyString
      /\ all_digits ds = true
      /\ (forall acc, decimal ds acc = acc * 10 ^ Z.of_nat (String.length ds) + n)
      /\ (0 < n -> forall t, ds <> String "0" t).
Proof.
  induction fuel as [|fuel IH]; intros n rest Hn.
  - simpl in Hn. eexists. now apply digits_one.
  - cbn [Py.digits]. destruct (Z.eqb_spec (n / 10) 0) as [Hz|Hnz].
    + assert (n < 10).
      { destruct (Z.lt_ge_cases n 10) as [|Hge]; [assumption|].
        pose proof (Z.div_le_mono 10 n 10 ltac:(lia) Hge) as Hdiv.
        change (10 / 10) with 1 in Hdiv. lia. }
      eexists. apply digits_one. lia.
    + assert (Hq : 0 <= n / 10 < 10 ^ (Z.of_nat fuel + 1)).
      { split; [apply Z.div_pos; lia|].
        apply Z.div_lt_upper_bound; [lia|].
        replace (Z.of_nat (S fuel) + 1) with (Z.succ (Z.of_nat fuel + 1)) in Hn by lia.
        rewrite Z.pow_succ_r in Hn by lia. lia. }
      destruct (IH (n / 10) (String (Py.digit_char (n mod 10)) rest) Hq)
        as (ds & Heq & Hne & Hall & Hval & Hlead).
      assert (Hm : 0 <= n mod 10 < 10) by (apply Z.mod_pos_bound; lia).
      destruct (digit_char_spec _ Hm) as [Hd Hv].
      exists (ds ++ String (Py.digit_char (n mod 10)) EmptyString).
      split; [now rewrite Heq, append_assoc|].
      split; [destruct ds; [contradiction | discriminate]|].
      split.
      { unfold all_digits in *. rewrite all_chars_app, Hall. simpl. now rewrite Hd. }
      split.
      { intros acc. rewrite decimal_app, Hval. cbn [decimal]. rewrite Hv.
        rewrite append_length. cbn [String.length].
        replace (Z.of_nat (String.length ds + 1))
          with (Z.succ (Z.of_nat (String.length ds))) by lia.
        rewrite Z.pow_succ_r by lia.
        pose proof (Z.div_mod n 10 ltac:(lia)). lia. }
      { intros Hpos t Ht. destruct ds as [|c ds]; [contradiction|].
        inversion Ht as [[Hc Hrest]]. subst c.
        apply (Hlead ltac:(lia) ds). reflexivity. }
Qed.

Lemma log2_fuel (n : Z) :
  0 <= n -> 0 <= n < 10 ^ (Z.of_nat (Z.to_nat (Z.log2 n)) + 1).
Proof.
  intros Hn. split; [assumption|].
  rewrite Z2Nat.id by apply Z.log2_nonneg.
  destruct (Z.eq_dec n 0) as [->|Hnz]; [reflexivity|].
  destruct (Z.log2_spec n ltac:(lia)) as [_ Hlt].
  apply Z.lt_le_trans with (1 := Hlt).
  rewrite <- Z.add_1_r.
  apply Z.pow_le_mono_l. lia.
Qed.

Lemma str_canonical (n : Z) : 0 <= n -> canonical_decimal (Py.str n) n.
Proof.
  intros Hn. destruct (Z.eq_dec n 0) as [->|Hnz].
  - change (Py.str 0) with "0". unfold canonical_decimal.
    repeat split; try reflexivity; [discriminate|].
    intros t Ht. now inversion Ht.
  - unfold Py.str.
    destruct (Z.ltb_spec n 0) as [|_]; [lia|].
    destruct (digits_spec _ n EmptyString (log2_fuel n Hn))
      as (ds & Heq & Hne & Hall & Hval & Hlead).
    assert (Hds : ds ++ "" = ds).
    { clear. induction ds as [|c ds IH]; simpl; [reflexivity | now rewrite IH]. }
    rewrite Heq, Hds. repeat split; try assumption.
    + rewrite Hval. lia.
    + intros t Ht. exfalso. apply (Hlead ltac:(lia) t Ht).
Qed.

Lemma int_str (n : Z) : 0 <= n -> Py.int (Py.str n) = Some n.
Proof.
  intros Hn. destruct (str_canonical n Hn) as (Hne & Hall & Hval & _).
  rewrite (int_all_digits _ Hne Hall). now rewrite Hval.
Qed.

Lemma decimal_nonneg (s : string) :
  all_digits s = true -> forall acc, 0 <= acc -> 0 <= decimal s acc.
Proof.
  unfold all_digits.
  induction s as [|c s IH]; cbn [decimal all_chars]; intros Hs acc Hacc;
    [assumption|].
  apply andb_true_iff in Hs. destruct Hs as [Hc Hs].
  apply IH; [assumption|].
  apply isdigit_code in Hc. unfold Py.digit_value. lia.
Qed.

(** Cutting at the separator. *)
Lemma split_no_sep (sep : ascii) (s : string) :
  Py.contains sep s = false -> Py.split sep s = [s].
Proof.
  induction s as [|c s IH]; simpl; [reflexivity|].
  intros H. apply orb_false_iff in H. destruct H as [Hc Hs].
  rewrite Hc, (IH Hs). reflexivity.
Qed.

Lemma split_app (sep : ascii) (a b : string) :
  Py.contains sep a = false ->
  Py.split sep (a ++ String sep b) = a :: Py.split sep b.
Proof.
  induction a as [|c a IH]; simpl.
  - intros _. now rewrite Ascii.eqb_refl.
  - intros H. apply orb_false_iff in H. destruct H as [Hc Ha].
    rewrite Hc, (IH Ha). reflexivity.
Qed.

Lemma index_none (c : ascii) (s : string) :
  Py.contains c s = false -> Py.index c s = None.
Proof.
  induction s as [|d s IH]; simpl; [reflexivity|].
  intros H. apply orb_false_iff in H. destruct H as [Hd Hs].
  now rewrite Hd, (IH Hs).
Qed.

Lemma index_app (c : ascii) (a b : string) :
  Py.contains c a = false ->
  Py.index c (a ++ String c b) = Some (String.length a).
Proof.
  induction a as [|d a IH]; simpl.
  - intros _. now rewrite Ascii.eqb_refl.
  - intros H. apply orb_false_iff in H. destruct H as [Hd Ha].
    now rewrite Hd, (IH Ha).
Qed.

Lemma slice_to_app (a b : string) : Py.slice_to (String.length a) (a ++ b) = a.
Proof. induction a as [|c a IH]; simpl; [now destruct b | now rewrite IH]. Qed.

Lemma slice_from_app (a b : string) (c : ascii) :
  Py.slice_from (String.length a + 1) (a ++ String c b) = b.
Proof. induction a as [|d a IH]; simpl; [reflexivity | exact IH]. Qed.

Lemma digits_no_hyphen (s : string) :
  all_digits s = true -> Py.contains "-" s = false.
Proof. now apply all_chars_not_contains. Qed.

Lemma digits_no_dot (s : string) :
  all_digits s = true -> Py.contains "." s = false.
Proof. now apply all_chars_not_contains. Qed.

(** A numeral is determined by the number it denotes. *)
Lemma decimal_acc (s : string) :
  forall acc, decimal s acc = acc * 10 ^ Z.of_nat (String.length s) + decimal s 0.
Proof.
  induction s as [|c s IH]; intros acc; cbn [decimal String.length].
  - change (10 ^ Z.of_nat 0) with 1. lia.
  - rewrite (IH (10 * acc + Py.digit_value c)), (IH (10 * 0 + Py.digit_value c)).
    rewrite Nat2Z.inj_succ, Z.pow_succ_r by lia. lia.
Qed.

Lemma decimal_bound (s : string) :
  all_digits s = true -> 0 <= decimal s 0 < 10 ^ Z.of_nat (String.length s).
Proof.
  unfold all_digits.
  induction s as [|c s IH]; cbn [decimal String.length all_chars]; intros Hs.
  - change (10 ^ Z.of_nat 0) with 1. lia.
  - apply andb_true_iff in Hs. destruct Hs as [Hc Hs].
    apply isdigit_code in Hc. specialize (IH Hs).
    rewrite decimal_acc, Nat2Z.inj_succ, Z.pow_succ_r by lia.
    unfold Py.digit_value.
    assert (0 < 10 ^ Z.of_nat (String.length s)) by (apply Z.pow_pos_nonneg; lia).
    nia.
Qed.

Lemma code_inj (c d : ascii) : Py.code c = Py.code d -> c = d.
Proof.
  unfold Py.code. intros H. apply N2Z.inj in H.
  rewrite <- (ascii_N_embedding c), <- (ascii_N_embedding d). now rewrite H.
Qed.

Lemma decimal_inj_same_length (s : string) :
  forall t,
    String.length s = String.length t ->
    all_digits s = true -> all_digits t = true ->
    decimal s 0 = decimal t 0 -> s = t.
Proof.
  induction s as [|c s IH]; intros [|d t] Hlen Hs Ht Hval;
    try discriminate; [reflexivity|].
  injection Hlen as Hlen.
  destruct (proj1 (all_digits_cons c s) Hs) as [Hc Hs'].
  destruct (proj1 (all_digits_cons d t) Ht) as [Hd Ht'].
  pose proof (decimal_bound s Hs') as Bs.
  pose proof (decimal_bound t Ht') as Bt.
  cbn [decimal] in Hval. rewrite (decimal_acc s), (decimal_acc t) in Hval.
  rewrite Hlen in *.
  apply isdigit_code in Hc, Hd. unfold Py.digit_value in Hval.
  assert (Hcd : Py.code c = Py.code d) by nia.
  assert (Hrest : decimal s 0 = decimal t 0) by nia.
  rewrite (code_inj c d Hcd). f_equal.
  now apply IH.
Qed.

Lemma canonical_length (s : string) (n : Z) :
  canonical_decimal s n -> 0 < n ->
  10 ^ (Z.of_nat (String.length s) - 1) <= n < 10 ^ Z.of_nat (String.length s).
Proof.
  intros (Hne & Hall & Hval & Hlead) Hpos.
  pose proof (decimal_bound s Hall) as B. rewrite Hval in B.
  split; [|lia].
  destruct s as [|c s]; [contradiction|].
  destruct (proj1 (all_digits_cons c s) Hall) as [Hc Hs].
  pose proof (decimal_bound s Hs) as Bs.
  cbn [decimal] in Hval. rewrite decimal_acc in Hval.
  cbn [String.length]. rewrite Nat2Z.inj_succ.
  replace (Z.succ (Z.of_nat (String.length s)) - 1)
    with (Z.of_nat (String.length s)) by lia.
  apply isdigit_code in Hc. unfold Py.digit_value in Hval.
  assert (Hc0 : Py.code c <> 48).
  { intros Hz. assert (c = "0"%char) by (apply code_inj; exact Hz). subst c.
    specialize (Hlead s eq_refl). subst s.
    cbn in Hval. lia. }
  nia.
Qed.

Lemma canonical_unique (s t : string) (n : Z) :
  canonical_decimal s n -> canonical_decimal t n -> s = t.
Proof.
  intros Hs Ht.
  assert (Hn : 0 <= n).
  { destruct Hs as (_ & Hall & Hval & _). rewrite <- Hval.
    now apply decimal_nonneg. }
  destruct (Z.eq_dec n 0) as [->|Hnz].
  - assert (Hzero : forall u, canonical_decimal u 0 -> u = "0").
    { intros u (Hne & Hall & Hval & Hlead).
      destruct u as [|c u]; [contradiction|].
      destruct (proj1 (all_digits_cons c u) Hall) as [Hc Hu].
      pose proof (decimal_bound u Hu) as Bu.
      cbn [decimal] in Hval. rewrite decimal_acc in Hval.
      apply isdigit_code in Hc. unfold Py.digit_value in Hval.
      assert (Hc0 : Py.code c = 48) by nia.
      assert (c = "0"%char) by (apply code_inj; exact Hc0). subst c.
      now rewrite (Hlead u eq_refl). }
    now rewrite (Hzero s Hs), (Hzero t Ht).
  - pose proof (canonical_length s n Hs ltac:(lia)) as Ls.
    pose proof (canonical_length t n Ht ltac:(lia)) as Lt.
    assert (Hlen : String.length s = String.length t).
    { destruct (Nat.lt_trichotomy (String.length s) (String.length t))
        as [Hlt|[Heq|Hgt]]; [exfalso|exact Heq|exfalso].
      - assert (10 ^ Z.of_nat (String.length s)
                <= 10 ^ (Z.of_nat (String.length t) - 1))
          by (apply Z.pow_le_mono_r; lia).
        lia.
      - assert (10 ^ Z.of_nat (String.length t)
                <= 10 ^ (Z.of_nat (String.length s) - 1))
          by (apply Z.pow_le_mono_r; lia).
        lia. }
    destruct Hs as (_ & Hsall & Hsval & _), Ht as (_ & Htall & Htval & _).
    apply decimal_inj_same_length; congruence.
Qed.

(** The canonical numeral of [n] is what [str] writes. *)
Lemma canonical_is_str (s : string) (n : Z) :
  canonical_decimal s n <-> 0 <= n /\ s = Py.str n.
Proof.
  split.
  - intros Hs.
    assert (Hn : 0 <= n).
    { destruct Hs as (_ & Hall & Hval & _). rewrite <- Hval.
      now apply decimal_nonneg. }
    split; [exact Hn|].
    apply (canonical_unique s (Py.str n) n Hs). now apply str_canonical.
  - intros [Hn ->]. now apply str_canonical.
Qed.

(** [int] reads back what [str] writes, sign included. *)
Lemma int_unsigned_all_digits (s : string) :
  s <> EmptyString -> all_digits s = true ->
  Py.int_unsigned s = Some (decimal s 0).
Proof.
  intros Hne Hs. destruct s as [|c s]; [contradiction|].
  destruct (proj1 (all_digits_cons c s) Hs) as [Hc _].
  unfold Py.int_unsigned. rewrite Hc. now apply int_digits_all_digits.
Qed.

Lemma str_negative (n : Z) : n < 0 -> Py.str n = String "-" (Py.str (- n)).
Proof.
  intros Hn. unfold Py.str.
  destruct (Z.ltb_spec n 0) as [_|]; [|lia].
  destruct (Z.ltb_spec (- n) 0) as [|_]; [lia | reflexivity].
Qed.

Lemma int_str_any (n : Z) : Py.int (Py.str n) = Some n.
Proof.
  destruct (Z.lt_ge_cases n 0) as [Hneg|Hpos]; [|apply int_str; lia].
  rewrite (str_negative n Hneg).
  destruct (str_canonical (- n) ltac:(lia)) as (Hne & Hall & Hval & _).
  unfold Py.int.
  assert (Hns : all_chars (fun c => negb (Py.isspace c))
                  (String "-" (Py.str (- n))) = true).
  { cbn [all_chars]. now rewrite (digits_no_space _ Hall). }
  rewrite (int_strip_no_space _ Hns), Ascii.eqb_refl.
  rewrite (int_unsigned_all_digits _ Hne Hall), Hval.
  cbn [option_map]. f_equal. lia.
Qed.

(** ** Port ids *)

Section PortID.

Variable db : string -> option Z.

Lemma getPortID_int (n : Z) :
  getPortID db (PInt n) = if n >? 65535 then -2 else n.
Proof. reflexivity. Qed.

Lemma getPortID_str (s : string) :
  getPortID db (PStr s) =
    match Py.int (token_text s) with
    | Some id => if id >? 65535 then -2 else id
    | None =>
        match db (token_text s) with
        | Some id => if id >? 65535 then -2 else id
        | None => -1
        end
    end.
Proof. destruct s; reflexivity. Qed.

Lemma resolves_functional (port : port_arg) (a b : Z) :
  resolves db port a -> resolves db port b -> a = b.
Proof.
  intros Ha Hb.
  destruct Ha; inversion Hb; subst; congruence.
Qed.

Lemma getPortID_resolved (port : port_arg) (id : Z) :
  resolves db port id ->
  getPortID db port = if id >? 65535 then -2 else id.
Proof.
  intros [n | s n Hn | s n Hnone Hn].
  - apply getPortID_int.
  - rewrite getPortID_str, Hn. reflexivity.
  - rewrite getPortID_str, Hnone, Hn. reflexivity.
Qed.

Lemma getPortID_unresolved (port : port_arg) :
  (forall id, ~ resolves db port id) -> getPortID db port = -1.
Proof.
  intros Hno.
  destruct port as [n | s].
  - exfalso. apply (Hno n). constructor.
  - rewrite getPortID_str.
    destruct (Py.int (token_text s)) as [n|] eqn:Hint.
    + exfalso. apply (Hno n). now apply resolves_literal.
    + destruct (db (token_text s)) as [n|] eqn:Hdb; [|reflexivity].
      exfalso. apply (Hno n). now apply resolves_service.
Qed.

(** C4. [getPortID] answers -1 when the token is neither an integer nor
    a name of the service database, -2 when the id it denotes is above
    65535, and the id itself otherwise; the two rejection codes differ. *)
Theorem getPortID_rejection_codes (port : port_arg) :
  ((forall id, ~ resolves db port id) -> getPortID db port = -1)
  /\ (forall id, resolves db port id -> 65535 < id ->
                 getPortID db port = -2)
  /\ (forall id, resolves db port id -> id <= 65535 ->
                 getPortID db port = id)
  /\ -1 <> -2.
Proof.
  split; [apply getPortID_unresolved|].
  split; [|split; [|lia]].
  - intros id Hres Hbig. rewrite (getPortID_resolved _ _ Hres).
    destruct (Z.gtb_spec id 65535); [reflexivity | lia].
  - intros id Hres Hsmall. rewrite (getPortID_resolved _ _ Hres).
    destruct (Z.gtb_spec id 65535); [lia | reflexivity].
Qed.

(** C9. A negative integer comes back unchanged, so the integer -1 gives
    what an unknown token gives and the integer -2 gives what an integer
    above 65535 gives. *)
Theorem getPortID_negative_int_unchanged (p : Z) :
  p < 0 ->
  getPortID db (PInt p) = p
  /\ (p = -1 -> forall port, (forall id, ~ resolves db port id) ->
                getPortID db port = getPortID db (PInt p))
  /\ (p = -2 -> forall n, 65535 < n ->
                getPortID db (PInt n) = getPortID db (PInt p)).
Proof.
  intros Hneg.
  assert (Hp : getPortID db (PInt p) = p).
  { rewrite getPortID_int. destruct (Z.gtb_spec p 65535); [lia | reflexivity]. }
  rewrite Hp. split; [reflexivity|]. split.
  - intros -> port Hno. now apply getPortID_unresolved.
  - intros -> n Hbig. rewrite getPortID_int.
    destruct (Z.gtb_spec n 65535); [reflexivity | lia].
Qed.

End PortID.

(** ** Port ranges *)

Section PortRange.

Variable db : string -> option Z.

(** Every tuple the loop appends has its lower id first. *)
Lemma getPortRange_step_ordered (splits : list string) (i : nat)
    (matched : list port_tuple) :
  Forall ordered matched ->
  Forall ordered (fst (getPortRange_step db splits i matched)).
Proof.
  intros Hm. unfold getPortRange_step.
  set (id1 := getPortID db (PStr (Py.join "-" (firstn i splits)))).
  set (id2 := getPortID db (PStr (Py.join "-" (skipn i splits)))).
  destruct (0 <? String.length (Py.join "-" (skipn i splits)))%nat.
  - destruct ((id1 >=? 0) && (id2 >=? 0)); [|exact Hm].
    destruct (Z.ltb_spec id1 id2) as [Hlt|Hge]; simpl.
    + apply Forall_app; split; [exact Hm|]. now repeat constructor.
    + destruct (Z.gtb_spec id1 id2) as [Hgt|Hle]; simpl;
        apply Forall_app; (split; [exact Hm|]);
        repeat constructor. simpl. lia.
  - destruct (id1 >=? 0); simpl; [|exact Hm].
    apply Forall_app; split; [exact Hm|]. now repeat constructor.
Qed.

Lemma getPortRange_loop_ordered (splits : list string) (i : nat) :
  forall matched,
    Forall ordered matched ->
    Forall ordered (getPortRange_loop db splits i matched).
Proof.
  induction i as [|i IH]; intros matched Hm; simpl; [exact Hm|].
  pose proof (getPortRange_step_ordered splits (S i) matched Hm) as Hstep.
  destruct (getPortRange_step db splits (S i) matched) as [matched' stop].
  simpl in Hstep. destruct stop; [exact Hstep | now apply IH].
Qed.

Lemma getPortRange_ordered (ports : port_arg) (t : port_tuple) :
  getPortRange db ports = RTuple t -> ordered t.
Proof.
  destruct ports as [n | s]; simpl.
  - destruct (_ >=? 0); intros H; inversion H. exact I.
  - pose proof (getPortRange_loop_ordered (Py.split "-" s)
                  (List.length (Py.split "-" s)) [] (Forall_nil _)) as Hall.
    destruct (getPortRange_loop db _ _ _) as [|t0 [|t1 rest]];
      intros H; inversion H; subst.
    now inversion Hall.
Qed.

(** C8. A pair returned by [getPortRange] has its lower id strictly
    first; so [check_port] never reports "range start >= end", and a
    pair is never what makes it answer [False]. *)
Theorem getPortRange_pair_increasing (ports : port_arg) :
  (forall x y, getPortRange db ports = RTuple (Tuple2 x y) -> x < y)
  /\ (forall verdict log port,
        check_port db ports = Return (verdict, log) ->
        ~ In (RangeStartGeEnd port) log)
  /\ (forall x y, getPortRange db ports = RTuple (Tuple2 x y) ->
        check_port db ports = Return (true, [])).
Proof.
  assert (Hpair : forall x y,
             getPortRange db ports = RTuple (Tuple2 x y) -> x < y).
  { intros x y H. exact (getPortRange_ordered _ _ H). }
  split; [exact Hpair|]. split.
  - intros verdict log port. unfold check_port.
    destruct (getPortRange db ports) as [n| |[id|x y]] eqn:E.
    + destruct (n =? -2); [|destruct (n =? -1)];
        intros H; inversion H; subst; simpl; intros [F|[]]; discriminate.
    + intros H; inversion H; subst; simpl; intros [F|[]]; discriminate.
    + simpl. intros H; inversion H; subst. intros [].
    + pose proof (Hpair x y eq_refl) as Hlt. simpl.
      destruct (Z.geb_spec x y) as [Hge|_]; [lia|].
      intros H; inversion H; subst. intros [].
  - intros x y E. unfold check_port. rewrite E. simpl.
    pose proof (Hpair x y E) as Hlt.
    destruct (Z.geb_spec x y) as [Hge|_]; [lia | reflexivity].
Qed.

Lemma getPortID_service_name (s : string) (id : Z) :
  service_name db s id -> getPortID db (PStr s) = id.
Proof.
  intros (Hint & Hdb & Hlo & Hhi).
  rewrite getPortID_str, Hint, Hdb.
  destruct (Z.gtb_spec id 65535); [lia | reflexivity].
Qed.

(** A string that resolves as a whole is settled by the first turn of
    the loop. *)
Lemma getPortRange_full_match (s : string) :
  0 <= getPortID db (PStr s) ->
  getPortRange db (PStr s) = RTuple (Tuple1 (getPortID db (PStr s))).
Proof.
  intros Hid. unfold getPortRange.
  pose proof (split_not_nil "-" s) as Hnn.
  pose proof (join_split "-" s) as Hjoin.
  destruct (Py.split "-" s) as [|h t] eqn:E; [contradiction|].
  change (List.length (h :: t)) with (S (List.length t)).
  cbn [getPortRange_loop]. unfold getPortRange_step.
  change (S (List.length t)) with (List.length (h :: t)).
  rewrite firstn_length_all, skipn_length_all, Hjoin.
  change (Py.join "-" []) with EmptyString. cbn [String.length Nat.ltb Nat.leb].
  destruct (Z.geb_spec (getPortID db (PStr s)) 0) as [_|Hneg]; [|lia].
  rewrite Nat.eqb_refl. reflexivity.
Qed.

(** C1, as the code has it. A string that is as a whole a name of the
    service database is accepted as that single port, whether or not
    some cut at a hyphen also gives two valid ids: the loop stops at the
    full match. *)
Theorem getPortRange_service_name_wins (s : string) (id : Z) :
  service_name db s id ->
  getPortRange db (PStr s) = RTuple (Tuple1 id)
  /\ getPortRange db (PStr s) <> RNone.
Proof.
  intros Hsvc.
  pose proof (getPortID_service_name s id Hsvc) as Hid.
  destruct Hsvc as (_ & _ & Hlo & _).
  assert (E : getPortRange db (PStr s) = RTuple (Tuple1 id)).
  { rewrite <- Hid. apply getPortRange_full_match. lia. }
  rewrite E. split; [reflexivity | discriminate].
Qed.

Lemma getPortRange_empty_not_None : getPortRange db (PStr "") <> RNone.
Proof.
  unfold getPortRange. cbn [Py.split List.length getPortRange_loop].
  unfold getPortRange_step.
  cbn [firstn skipn Py.join String.concat String.length Nat.ltb Nat.leb].
  destruct (_ >=? 0); discriminate.
Qed.

Lemma portStr_None (s delimiter : string) :
  getPortRange db (PStr s) = RNone ->
  portStr db (PStr s) delimiter = Raise TypeError.
Proof.
  intros H. destruct s as [|c s].
  - now apply getPortRange_empty_not_None in H.
  - unfold portStr. now rewrite H.
Qed.

Lemma portStr_negative_code (port : port_arg) (delimiter : string) (n : Z) :
  port <> PStr "" ->
  getPortRange db port = RInt n -> n < 0 ->
  portStr db port delimiter = Return None.
Proof.
  intros Hne H Hneg.
  assert (E : portStr db port delimiter =
              match getPortRange db port with
              | RInt n => if n <? 0 then Return None else Raise TypeError
              | RNone => Raise TypeError
              | RTuple (Tuple1 id) => Return (Some (Py.str id))
              | RTuple (Tuple2 id1 id2) =>
                  Return (Some (Py.str id1 ++ delimiter ++ Py.str id2))
              end).
  { destruct port as [m|[|c s]]; try reflexivity. now contradiction Hne. }
  rewrite E, H. destruct (Z.ltb_spec n 0); [reflexivity | lia].
Qed.

End PortRange.

(** ** Port ranges written with numerals *)

Section NumericRange.

Variable db : string -> option Z.

Lemma getPortID_digits (s : string) :
  s <> EmptyString -> all_digits s = true -> decimal s 0 <= 65535 ->
  getPortID db (PStr s) = decimal s 0.
Proof.
  intros Hne Hs Hmax.
  rewrite getPortID_str, (token_text_no_space _ (digits_no_space _ Hs)).
  rewrite (int_all_digits _ Hne Hs).
  destruct (Z.gtb_spec (decimal s 0) 65535); [lia | reflexivity].
Qed.

Lemma getPortID_range_text (a b : string) :
  a <> EmptyString -> all_digits a = true -> all_digits b = true ->
  db (a ++ String "-" b) = None ->
  getPortID db (PStr (a ++ String "-" b)) = -1.
Proof.
  intros Hne Ha Hb Hdb.
  assert (Hns : all_chars (fun c => negb (Py.isspace c)) (a ++ String "-" b) = true).
  { rewrite all_chars_app, (digits_no_space _ Ha). simpl.
    now rewrite (digits_no_space _ Hb). }
  rewrite getPortID_str, (token_text_no_space _ Hns).
  now rewrite (int_range_text a b Hne Ha Hb), Hdb.
Qed.

Lemma getPortRange_digits (a b : string) :
  a <> EmptyString -> b <> EmptyString ->
  all_digits a = true -> all_digits b = true ->
  decimal a 0 <= 65535 -> decimal b 0 <= 65535 ->
  db (a ++ String "-" b) = None ->
  getPortRange db (PStr (a ++ String "-" b)) =
    RTuple (if decimal a 0 <? decimal b 0 then Tuple2 (decimal a 0) (decimal b 0)
            else if decimal a 0 >? decimal b 0 then Tuple2 (decimal b 0) (decimal a 0)
            else Tuple1 (decimal a 0)).
Proof.
  intros Hane Hbne Ha Hb Hamax Hbmax Hdb.
  unfold getPortRange.
  rewrite (split_app "-" a b (digits_no_hyphen a Ha)).
  rewrite (split_no_sep "-" b (digits_no_hyphen b Hb)).
  cbn [List.length getPortRange_loop].
  unfold getPortRange_step at 1.
  change (Py.join "-" (firstn 2 [a; b])) with (a ++ String "-" b).
  change (Py.join "-" (skipn 2 [a; b])) with EmptyString.
  rewrite (getPortID_range_text a b Hane Ha Hb Hdb).
  cbn [String.length Nat.ltb Nat.leb Z.geb Z.compare].
  unfold getPortRange_step.
  change (Py.join "-" (firstn 1 [a; b])) with a.
  change (Py.join "-" (skipn 1 [a; b])) with b.
  rewrite (getPortID_digits a Hane Ha Hamax), (getPortID_digits b Hbne Hb Hbmax).
  pose proof (decimal_nonneg a Ha 0 ltac:(lia)) as Hage.
  pose proof (decimal_nonneg b Hb 0 ltac:(lia)) as Hbge.
  destruct b as [|c b]; [contradiction|].
  cbn [String.length Nat.ltb Nat.leb].
  destruct (Z.geb_spec (decimal a 0) 0) as [_|]; [|lia].
  destruct (Z.geb_spec (decimal (String c b) 0) 0) as [_|]; [|lia].
  cbn [andb].
  destruct (_ <? _); [reflexivity|]. destruct (_ >? _); reflexivity.
Qed.

(** C3. For decimal numerals [a] and [b] of ids up to 65535, the string
    ["a-b"], when it is not itself a name of the service database, parses
    to [(a, b)] if [a < b], to [(a,)] if [a = b] and to [(b, a)] if
    [a > b].  The numerals are the texts [sa] and [sb]; a numeral carries
    no sign, a hyphen in front of it would be one more separator. *)
Theorem getPortRange_numeric_range (sa sb : string) (a b : Z) :
  canonical_decimal sa a -> canonical_decimal sb b ->
  a <= 65535 -> b <= 65535 ->
  db (sa ++ "-" ++ sb) = None ->
  (a < b -> getPortRange db (PStr (sa ++ "-" ++ sb)) = RTuple (Tuple2 a b))
  /\ (a = b -> getPortRange db (PStr (sa ++ "-" ++ sb)) = RTuple (Tuple1 a))
  /\ (a > b -> getPortRange db (PStr (sa ++ "-" ++ sb)) = RTuple (Tuple2 b a)).
Proof.
  intros (Hane & Hadig & Haval & _) (Hbne & Hbdig & Hbval & _) Ha Hb Hdb.
  change (sa ++ "-" ++ sb) with (sa ++ String "-" sb) in *.
  rewrite (getPortRange_digits _ _ Hane Hbne Hadig Hbdig
             ltac:(lia) ltac:(lia) Hdb).
  rewrite Haval, Hbval.
  destruct (Z.ltb_spec a b); destruct (Z.gtb_spec a b);
    repeat split; intros; try lia; try reflexivity.
Qed.

End NumericRange.

(** ** Formatting a port *)

Section Formatting.

Variable db : string -> option Z.

Lemma getPortRange_int (p : Z) :
  0 <= p <= 65535 -> getPortRange db (PInt p) = RTuple (Tuple1 p).
Proof.
  intros Hp. unfold getPortRange. rewrite getPortID_int.
  destruct (Z.gtb_spec p 65535) as [|_]; [lia|].
  destruct (Z.geb_spec p 0) as [_|]; [reflexivity | lia].
Qed.

Lemma getPortID_str_of_int (p : Z) :
  0 <= p <= 65535 -> getPortID db (PStr (Py.str p)) = p.
Proof.
  intros Hp.
  destruct (str_canonical p (proj1 Hp)) as (Hne & Hall & Hval & _).
  rewrite (getPortID_digits db _ Hne Hall); lia.
Qed.

(** C5. For a port [p] in 0..65535, [portStr] writes the canonical decimal
    numeral of [p], and [getPortID] reads that numeral back as [p]. *)
Theorem portStr_getPortID_roundtrip (p : Z) (delimiter : string) :
  0 <= p <= 65535 ->
  portStr db (PInt p) delimiter = Return (Some (Py.str p))
  /\ canonical_decimal (Py.str p) p
  /\ getPortID db (PStr (Py.str p)) = p.
Proof.
  intros Hp. split; [|split].
  - unfold portStr. now rewrite (getPortRange_int p Hp).
  - apply str_canonical. lia.
  - now apply getPortID_str_of_int.
Qed.

End Formatting.

(** ** Integers contain no dot *)

Lemma int_digits_no_dot (s : string) :
  forall acc v, Py.int_digits s acc = Some v -> Py.contains "." s = false.
Proof.
  induction s as [|c s IH]; intros acc v H; [reflexivity|].
  cbn [Py.int_digits] in H. cbn [Py.contains].
  destruct (Py.isdigit c) eqn:Hc.
  - rewrite (isdigit_neq c "." Hc eq_refl). exact (IH _ _ H).
  - destruct (Ascii.eqb_spec c "_") as [->|]; [|discriminate H].
    destruct s as [|d s']; [discriminate H|].
    destruct (Py.isdigit d); [|discriminate H].
    exact (IH _ _ H).
Qed.

Lemma int_unsigned_no_dot (s : string) (v : Z) :
  Py.int_unsigned s = Some v -> Py.contains "." s = false.
Proof.
  unfold Py.int_unsigned. destruct s as [|c s]; [discriminate|].
  destruct (Py.isdigit c); [apply int_digits_no_dot | discriminate].
Qed.

Lemma int_space_not_dot (c : ascii) :
  Py.int_isspace c = true -> Ascii.eqb c "." = false.
Proof.
  intros Hc. destruct (Ascii.eqb_spec c ".") as [->|]; [discriminate Hc | reflexivity].
Qed.

Lemma contains_dot_int_lskip (s : string) :
  Py.contains "." (Py.int_lskip s) = Py.contains "." s.
Proof.
  induction s as [|c s IH]; [reflexivity|].
  cbn [Py.int_lskip]. destruct (Py.int_isspace c) eqn:Hc; [|reflexivity].
  cbn [Py.contains]. now rewrite (int_space_not_dot c Hc), IH.
Qed.

Lemma contains_dot_int_rskip (s : string) :
  Py.contains "." (Py.int_rskip s) = Py.contains "." s.
Proof.
  induction s as [|c s IH]; [reflexivity|].
  cbn [Py.int_rskip Py.contains]. rewrite <- IH.
  destruct (Py.int_rskip s) as [|d r]; [|reflexivity].
  destruct (Py.int_isspace c) eqn:Hc; cbn [Py.contains].
  - now rewrite (int_space_not_dot c Hc).
  - reflexivity.
Qed.

(** What [int] reads as a number contains no dot. *)
Lemma int_some_no_dot (s : string) (v : Z) :
  Py.int s = Some v -> Py.contains "." s = false.
Proof.
  unfold Py.int, Py.int_strip. intros H.
  rewrite <- contains_dot_int_lskip, <- contains_dot_int_rskip.
  destruct (Py.int_rskip (Py.int_lskip s)) as [|c t]; [reflexivity|].
  cbn [Py.contains].
  destruct (Ascii.eqb_spec c "-") as [->|Hminus].
  - destruct (Py.int_unsigned t) as [u|] eqn:Hu; [|discriminate H].
    now rewrite (int_unsigned_no_dot t u Hu).
  - destruct (Ascii.eqb_spec c "+") as [->|Hplus].
    + now rewrite (int_unsigned_no_dot t v H).
    + apply (int_unsigned_no_dot _ _ H).
Qed.

(** ** Addresses with a prefix length *)

Section Addresses.

Variable libc_inet_pton : address_family -> string -> bool.

Lemma split_mask_plain (addr : string) :
  Py.contains "/" addr = false -> split_mask addr = (addr, None).
Proof. intros H. unfold split_mask. now rewrite (index_none _ _ H). Qed.

Lemma split_mask_slash (addr mask : string) :
  Py.contains "/" addr = false ->
  split_mask (addr ++ "/" ++ mask) = (addr, Some mask).
Proof.
  intros H. unfold split_mask.
  change (addr ++ "/" ++ mask) with (addr ++ String "/" mask).
  rewrite (index_app _ _ _ H), slice_to_app, slice_from_app. reflexivity.
Qed.

Lemma prefix_length_text (n : Z) :
  0 <= n ->
  Py.str n <> EmptyString
  /\ Py.contains "." (Py.str n) = false
  /\ Py.int (Py.str n) = Some n.
Proof.
  intros Hn. destruct (str_canonical n Hn) as (Hne & Hall & _ & _).
  split; [assumption|]. split; [now apply digits_no_dot | now apply int_str].
Qed.

Lemma checkIPnMask_plain (addr : string) :
  Py.contains "/" addr = false ->
  checkIP libc_inet_pton addr = Return true ->
  checkIPnMask libc_inet_pton addr = Return true.
Proof.
  intros Hs Hok. unfold checkIPnMask.
  rewrite (split_mask_plain _ Hs), Hok. reflexivity.
Qed.

Lemma checkIPnMask_prefix (addr : string) (n : Z) :
  Py.contains "/" addr = false ->
  checkIP libc_inet_pton addr = Return true ->
  0 <= n <= 32 ->
  checkIPnMask libc_inet_pton (addr ++ "/" ++ Py.str n) = Return true.
Proof.
  intros Hs Hok Hn. unfold checkIPnMask.
  rewrite (split_mask_slash _ _ Hs), Hok.
  destruct (prefix_length_text n (proj1 Hn)) as (Hne & Hdot & Hint).
  cbn [bind negb]. destruct (Py.str n) as [|c m] eqn:E; [contradiction|].
  rewrite Hdot. cbn [bind]. rewrite Hint.
  destruct (Z.ltb_spec n 0) as [|_]; [lia|].
  destruct (Z.gtb_spec n 32) as [|_]; [lia | reflexivity].
Qed.

Lemma checkIPnMask_dotted (ip addr mask : string) :
  split_mask ip = (addr, Some mask) ->
  Py.contains "." mask = true ->
  checkIPnMask libc_inet_pton ip =
    (_ <- checkIP libc_inet_pton addr ;; Return false).
Proof.
  intros Hsplit Hdot. unfold checkIPnMask. rewrite Hsplit.
  destruct (checkIP libc_inet_pton addr) as [[|]|e] eqn:Hok; cbn [bind negb];
    try reflexivity.
  destruct mask as [|c m]; [discriminate|].
  rewrite Hdot. reflexivity.
Qed.

Lemma checkIP6nMask_plain (addr : string) :
  Py.contains "/" addr = false ->
  checkIP6 libc_inet_pton addr = Return true ->
  checkIP6nMask libc_inet_pton addr = Return true.
Proof.
  intros Hs Hok. unfold checkIP6nMask.
  rewrite (split_mask_plain _ Hs), Hok. reflexivity.
Qed.

Lemma checkIP6nMask_prefix (addr : string) (n : Z) :
  Py.contains "/" addr = false ->
  checkIP6 libc_inet_pton addr = Return true ->
  0 <= n <= 128 ->
  checkIP6nMask libc_inet_pton (addr ++ "/" ++ Py.str n) = Return true.
Proof.
  intros Hs Hok Hn. unfold checkIP6nMask.
  rewrite (split_mask_slash _ _ Hs), Hok.
  destruct (prefix_length_text n (proj1 Hn)) as (Hne & _ & Hint).
  cbn [bind negb]. destruct (Py.str n) as [|c m] eqn:E; [contradiction|].
  rewrite Hint.
  destruct (Z.ltb_spec n 0) as [|_]; [lia|].
  destruct (Z.gtb_spec n 128) as [|_]; [lia | reflexivity].
Qed.

Lemma checkIP6nMask_too_long (ip addr mask : string) (n : Z) :
  split_mask ip = (addr, Some mask) ->
  Py.int mask = Some n -> 128 < n ->
  checkIP6nMask libc_inet_pton ip =
    (_ <- checkIP6 libc_inet_pton addr ;; Return false).
Proof.
  intros Hsplit Hint Hn. unfold checkIP6nMask. rewrite Hsplit.
  destruct (checkIP6 libc_inet_pton addr) as [[|]|e] eqn:Hok; cbn [bind negb];
    try reflexivity.
  destruct mask as [|c m]; [discriminate|].
  rewrite Hint.
  destruct (Z.gtb_spec n 128) as [_|]; [|lia].
  now rewrite orb_true_r.
Qed.

(** The two functions accept exactly a valid address with a mask part
    that is in order. *)
Lemma checkIPnMask_true_iff (ip : string) :
  checkIPnMask libc_inet_pton ip = Return true <->
  checkIP libc_inet_pton (fst (split_mask ip)) = Return true
  /\ mask_ok 32 (snd (split_mask ip)).
Proof.
  unfold checkIPnMask. destruct (split_mask ip) as [addr mask].
  cbn [fst snd].
  destruct (checkIP libc_inet_pton addr) as [[|]|e]; cbn [bind negb];
    [|split; [discriminate | intros [H _]; discriminate H]
     |split; [discriminate | intros [H _]; discriminate H]].
  destruct mask as [[|c m]|]; cbn [mask_ok];
    [split; auto | | split; auto].
  destruct (Py.contains "." (String c m)) eqn:Hdot; cbn [bind].
  - split; [discriminate|]. intros [_ [Hempty|(i & Hint & _)]];
      [discriminate Hempty|].
    rewrite (int_some_no_dot _ _ Hint) in Hdot. discriminate Hdot.
  - destruct (Py.int (String c m)) as [i|] eqn:Hint.
    + destruct ((i <? 0) || (i >? 32)) eqn:Hr.
      * split; [discriminate|].
        intros [_ [Hempty|(j & Hj & Hrange)]]; [discriminate Hempty|].
        injection Hj as <-. apply orb_true_iff in Hr.
        rewrite Z.gtb_ltb, !Z.ltb_lt in Hr. lia.
      * split; [|reflexivity]. intros _. split; [reflexivity|].
        right. exists i. split; [reflexivity|].
        apply orb_false_iff in Hr. rewrite Z.gtb_ltb, !Z.ltb_ge in Hr. lia.
    + split; [discriminate|].
      intros [_ [Hempty|(j & Hj & _)]]; discriminate.
Qed.

Lemma checkIP6nMask_true_iff (ip : string) :
  checkIP6nMask libc_inet_pton ip = Return true <->
  checkIP6 libc_inet_pton (fst (split_mask ip)) = Return true
  /\ mask_ok 128 (snd (split_mask ip)).
Proof.
  unfold checkIP6nMask. destruct (split_mask ip) as [addr mask].
  cbn [fst snd].
  destruct (checkIP6 libc_inet_pton addr) as [[|]|e]; cbn [bind negb];
    [|split; [discriminate | intros [H _]; discriminate H]
     |split; [discriminate | intros [H _]; discriminate H]].
  destruct mask as [[|c m]|]; cbn [mask_ok];
    [split; auto | | split; auto].
  destruct (Py.int (String c m)) as [i|] eqn:Hint.
  - destruct ((i <? 0) || (i >? 128)) eqn:Hr.
    * split; [discriminate|].
      intros [_ [Hempty|(j & Hj & Hrange)]]; [discriminate Hempty|].
      injection Hj as <-. apply orb_true_iff in Hr.
      rewrite Z.gtb_ltb, !Z.ltb_lt in Hr. lia.
    * split; [|reflexivity]. intros _. split; [reflexivity|].
      right. exists i. split; [reflexivity|].
      apply orb_false_iff in Hr. rewrite Z.gtb_ltb, !Z.ltb_ge in Hr. lia.
  - split; [discriminate|].
    intros [_ [Hempty|(j & Hj & _)]]; discriminate.
Qed.

Lemma bind_not_true (m : result bool) :
  (_ <- m ;; Return false) <> Return true.
Proof. destruct m; simpl; discriminate. Qed.

(** C6. [checkIPnMask] accepts a valid IPv4 address, alone or followed by
    ["/"] and a prefix length in 0..32, and never accepts a string whose
    mask part contains a dot (it answers [False] when the address part is
    valid); [checkIP6nMask] accepts a valid IPv6 address, alone or
    followed by ["/"] and a prefix length in 0..128, and never accepts a
    prefix length above 128, as in ["::1/129"].  Nothing else passes:
    each function answers [True] exactly when the part before the first
    ["/"] is a valid address and the part behind it, if there is one, is
    empty or an integer within the bounds. *)
Theorem checkIPnMask_checkIP6nMask_prefix_lengths :
  (forall addr, Py.contains "/" addr = false ->
      checkIP libc_inet_pton addr = Return true ->
      checkIPnMask libc_inet_pton addr = Return true
      /\ forall n, 0 <= n <= 32 ->
           checkIPnMask libc_inet_pton (addr ++ "/" ++ Py.str n) = Return true)
  /\ (forall ip addr mask,
        split_mask ip = (addr, Some mask) -> Py.contains "." mask = true ->
        checkIPnMask libc_inet_pton ip <> Return true
        /\ (checkIP libc_inet_pton addr = Return true ->
            checkIPnMask libc_inet_pton ip = Return false))
  /\ (forall addr, Py.contains "/" addr = false ->
        checkIP6 libc_inet_pton addr = Return true ->
        checkIP6nMask libc_inet_pton addr = Return true
        /\ forall n, 0 <= n <= 128 ->
             checkIP6nMask libc_inet_pton (addr ++ "/" ++ Py.str n) = Return true)
  /\ (forall ip addr mask n,
        split_mask ip = (addr, Some mask) -> Py.int mask = Some n -> 128 < n ->
        checkIP6nMask libc_inet_pton ip <> Return true
        /\ (checkIP6 libc_inet_pton addr = Return true ->
            checkIP6nMask libc_inet_pton ip = Return false))
  /\ checkIP6nMask libc_inet_pton "::1/129" <> Return true
  /\ (checkIP6 libc_inet_pton "::1" = Return true ->
      checkIP6nMask libc_inet_pton "::1/129" = Return false)
  /\ (forall ip,
        checkIPnMask libc_inet_pton ip = Return true <->
        checkIP libc_inet_pton (fst (split_mask ip)) = Return true
        /\ mask_ok 32 (snd (split_mask ip)))
  /\ (forall ip,
        checkIP6nMask libc_inet_pton ip = Return true <->
        checkIP6 libc_inet_pton (fst (split_mask ip)) = Return true
        /\ mask_ok 128 (snd (split_mask ip))).
Proof.
  split; [|split; [|split; [|split; [|split; [|split; [|split]]]]]];
    [| | | | | |apply checkIPnMask_true_iff |apply checkIP6nMask_true_iff].
  - intros addr Hs Hok. split.
    + now apply checkIPnMask_plain.
    + intros n Hn. now apply checkIPnMask_prefix.
  - intros ip addr mask Hsplit Hdot.
    rewrite (checkIPnMask_dotted ip addr mask Hsplit Hdot). split.
    + apply bind_not_true.
    + now intros ->.
  - intros addr Hs Hok. split.
    + now apply checkIP6nMask_plain.
    + intros n Hn. now apply checkIP6nMask_prefix.
  - intros ip addr mask n Hsplit Hint Hn.
    rewrite (checkIP6nMask_too_long ip addr mask n Hsplit Hint Hn). split.
    + apply bind_not_true.
    + now intros ->.
  - rewrite (checkIP6nMask_too_long "::1/129" "::1" "129" 129
               eq_refl eq_refl ltac:(lia)).
    apply bind_not_true.
  - rewrite (checkIP6nMask_too_long "::1/129" "::1" "129" 129
               eq_refl eq_refl ltac:(lia)).
    now intros ->.
Qed.

End Addresses.

(** ** Interface names *)

Lemma checkInterface_true_iff (iface : string) :
  checkInterface iface = true <->
  iface <> EmptyString
  /\ (String.length iface <= 16)%nat
  /\ forall ch, In ch forbidden_in_interface -> Py.contains ch iface = false.
Proof.
  unfold checkInterface, forbidden_in_interface.
  destruct iface as [|c s].
  - split; [discriminate | intros [H _]; now contradiction H].
  - set (name := String c s).
    destruct (Nat.ltb_spec 16 (String.length name)) as [Hlong|Hshort].
    + split; [discriminate | intros (_ & Hlen & _); lia].
    + destruct (existsb (fun ch => Py.contains ch name) [" "; "/"; "!"; "*"]%char)
        eqn:Hex.
      * split; [discriminate|]. intros (_ & _ & Hnone).
        apply existsb_exists in Hex. destruct Hex as (ch & Hin & Hch).
        rewrite (Hnone ch Hin) in Hch. discriminate.
      * split; [|reflexivity]. intros _.
        split; [discriminate|]. split; [assumption|].
        intros ch Hin.
        destruct (Py.contains ch name) eqn:Hch; [|reflexivity].
        assert (Htrue : existsb (fun ch => Py.contains ch name)
                          [" "; "/"; "!"; "*"]%char = true).
        { apply existsb_exists. now exists ch. }
        congruence.
Qed.

(** C7. [checkInterface] answers [True] exactly for a name that is not
    empty, has at most 16 characters and contains none of [' '], ['/'],
    ['!'], ['*']; so ["eth0"] passes, ["eth0!"] does not, and no name of
    17 characters does. *)
Theorem checkInterface_valid_names :
  (forall iface,
      checkInterface iface = true <->
      iface <> EmptyString
      /\ (String.length iface <= 16)%nat
      /\ Py.contains " " iface = false /\ Py.contains "/" iface = false
      /\ Py.contains "!" iface = false /\ Py.contains "*" iface = false)
  /\ checkInterface "eth0" = true
  /\ checkInterface "eth0!" = false
  /\ (forall iface, String.length iface = 17%nat -> checkInterface iface = false).
Proof.
  split; [|split; [reflexivity|split; [reflexivity|]]].
  - intros iface. rewrite checkInterface_true_iff.
    unfold forbidden_in_interface. split.
    + intros (Hne & Hlen & Hnone).
      repeat split; try assumption; apply Hnone; simpl; auto.
    + intros (Hne & Hlen & H1 & H2 & H3 & H4).
      repeat split; try assumption.
      intros ch [<-|[<-|[<-|[<-|[]]]]]; assumption.
  - intros iface Hlen.
    destruct (checkInterface iface) eqn:E; [|reflexivity].
    apply checkInterface_true_iff in E. destruct E as (_ & Hle & _). lia.
Qed.

(** ** Zone names *)

Lemma fold_left_max_ge (l : list Z) :
  forall x, x <= fold_left Z.max l x
            /\ (forall y, In y l -> y <= fold_left Z.max l x).
Proof.
  induction l as [|z l IH]; intros x; simpl.
  - split; [lia | intros y []].
  - destruct (IH (Z.max x z)) as [Hx Hl]. split; [lia|].
    intros y [<-|Hy]; [lia | now apply Hl].
Qed.

Lemma fold_left_max_in (l : list Z) :
  forall x, In (fold_left Z.max l x) (x :: l).
Proof.
  induction l as [|z l IH]; intros x; simpl; [now left|].
  destruct (IH (Z.max x z)) as [H|H].
  - rewrite <- H. destruct (Z.max_spec x z) as [[_ ->]|[_ ->]]; auto.
  - right. now right.
Qed.

Lemma max_is_greatest (l : list Z) (n : Z) :
  In n l -> (forall y, In y l -> y <= n) -> Py.max l = Return n.
Proof.
  intros Hin Hall. destruct l as [|x l]; [contradiction|].
  unfold Py.max. f_equal.
  pose proof (fold_left_max_in l x) as Hmem.
  destruct (fold_left_max_ge l x) as [Hx Hl].
  apply Z.le_antisymm; [now apply Hall|].
  destruct Hin as [<-|Hin]; [assumption | now apply Hl].
Qed.

(** C10. [max_zone_name_len] is 28 minus the length of the longest
    shortcut plus the seven characters of ["__allow"]; when the longest
    shortcut has four characters this is 17. *)
Theorem max_zone_name_len_value (SHORTCUTS : list (string * string)) (n : Z) :
  longest SHORTCUTS n ->
  max_zone_name_len SHORTCUTS = Return (28 - (n + 7))
  /\ (n = 4 -> max_zone_name_len SHORTCUTS = Return 17).
Proof.
  intros [(k & v & Hin & Hlen) Hall].
  assert (E : max_zone_name_len SHORTCUTS = Return (28 - (n + 7))).
  { unfold max_zone_name_len.
    rewrite (max_is_greatest _ n); [reflexivity| |].
    - rewrite <- Hlen.
      apply (in_map (fun w => Z.of_nat (String.length w)) _ v).
      apply (in_map snd) in Hin. exact Hin.
    - intros y Hy. apply in_map_iff in Hy. destruct Hy as (w & <- & Hw).
      apply in_map_iff in Hw. destruct Hw as ([k' w'] & <- & Hw).
      now apply (Hall k'). }
  split; [exact E|]. intros ->. exact E.
Qed.

(** ** Ambiguous ranges and [portStr] *)

Lemma getPortRange_app_db_admin :
  getPortRange Env.getservbyname (PStr "app-db-admin") = RNone.
Proof. vm_compute. reflexivity. Qed.

(** C2. Whenever [getPortRange] answers [None] for a string, [portStr]
    does not return: [len(None)] raises [TypeError]; for the negative
    codes of [getPortRange] it returns [None]; and the raising branch is
    reached by some input. *)
Theorem portStr_ambiguous_raises_TypeError :
  (forall db s delimiter,
      getPortRange db (PStr s) = RNone ->
      portStr db (PStr s) delimiter = Raise TypeError)
  /\ (forall db port delimiter n,
        port <> PStr "" ->
        getPortRange db port = RInt n -> n < 0 ->
        portStr db port delimiter = Return None)
  /\ (exists db s delimiter, portStr db (PStr s) delimiter = Raise TypeError).
Proof.
  split; [|split].
  - intros db s delimiter. apply portStr_None.
  - intros db port delimiter n. apply portStr_negative_code.
  - exists Env.getservbyname, "app-db-admin", ":".
    apply portStr_None. exact getPortRange_app_db_admin.
Qed.

(** ** The theorems at work in the reference environment *)

(** C1, as the specification words it, fails: ["x11-1"] is a name of the
    services table, cutting it at its hyphen gives the two valid ids 6000
    and 1, and yet [getPortRange] accepts it as the single port 6001. *)
Lemma getPortRange_x11_1_not_ambiguous :
  service_name Env.getservbyname "x11-1" 6001
  /\ valid_split Env.getservbyname "x11-1" 1
  /\ getPortRange Env.getservbyname (PStr "x11-1") = RTuple (Tuple1 6001)
  /\ ~ (forall db s id i,
          service_name db s id -> valid_split db s i ->
          getPortRange db (PStr s) = RNone).
Proof.
  assert (Hname : service_name Env.getservbyname "x11-1" 6001).
  { unfold service_name. repeat split; try reflexivity; lia. }
  assert (Hcut : valid_split Env.getservbyname "x11-1" 1).
  { unfold valid_split. split; [simpl; lia|]. split; vm_compute; discriminate. }
  split; [exact Hname|]. split; [exact Hcut|]. split; [reflexivity|].
  intros Hclaim.
  specialize (Hclaim Env.getservbyname "x11-1" 6001 1%nat Hname Hcut).
  vm_compute in Hclaim. discriminate Hclaim.
Qed.

Lemma getPortRange_service_name_wins_witness :
  service_name Env.getservbyname "x11-1" 6001
  /\ getPortRange Env.getservbyname (PStr "x11-1") = RTuple (Tuple1 6001)
  /\ getPortRange Env.getservbyname (PStr "x11-1") <> RNone.
Proof.
  assert (H : service_name Env.getservbyname "x11-1" 6001).
  { unfold service_name. repeat split; try reflexivity; lia. }
  split; [exact H|].
  exact (getPortRange_service_name_wins Env.getservbyname "x11-1" 6001 H).
Defined.

Lemma portStr_ambiguous_raises_TypeError_witness :
  getPortRange Env.getservbyname (PStr "app-db-admin") = RNone
  /\ portStr Env.getservbyname (PStr "app-db-admin") ":" = Raise TypeError.
Proof.
  assert (H : getPortRange Env.getservbyname (PStr "app-db-admin") = RNone)
    by reflexivity.
  split; [exact H|].
  exact (proj1 portStr_ambiguous_raises_TypeError
           Env.getservbyname "app-db-admin" ":" H).
Defined.

Lemma getPortRange_numeric_range_witness :
  canonical_decimal "8080" 8080
  /\ canonical_decimal "443" 443
  /\ getPortRange Env.getservbyname (PStr "8080-443") = RTuple (Tuple2 443 8080).
Proof.
  assert (Ha : canonical_decimal "8080" 8080).
  { repeat split; try reflexivity; [discriminate|]. intros t Ht. discriminate Ht. }
  assert (Hb : canonical_decimal "443" 443).
  { repeat split; try reflexivity; [discriminate|]. intros t Ht. discriminate Ht. }
  split; [exact Ha|]. split; [exact Hb|].
  assert (Hgt : 8080 > 443) by lia.
  assert (Hamax : 8080 <= 65535) by lia.
  assert (Hbmax : 443 <= 65535) by lia.
  exact (proj2 (proj2 (getPortRange_numeric_range Env.getservbyname
                         "8080" "443" 8080 443 Ha Hb Hamax Hbmax eq_refl)) Hgt).
Defined.

Lemma getPortID_rejection_codes_witness :
  getPortID Env.getservbyname (PStr "65536") = -2
  /\ getPortID Env.getservbyname (PStr "http") = 80.
Proof.
  split.
  - apply (proj1 (proj2 (getPortID_rejection_codes Env.getservbyname
                           (PStr "65536"))) 65536).
    + now apply resolves_literal.
    + lia.
  - apply (proj1 (proj2 (proj2 (getPortID_rejection_codes Env.getservbyname
                                  (PStr "http")))) 80).
    + now apply resolves_service.
    + lia.
Defined.

Lemma portStr_getPortID_roundtrip_witness :
  portStr Env.getservbyname (PInt 8080) ":" = Return (Some "8080")
  /\ canonical_decimal "8080" 8080
  /\ getPortID Env.getservbyname (PStr "8080") = 8080.
Proof.
  apply (portStr_getPortID_roundtrip Env.getservbyname 8080 ":"). lia.
Defined.

Lemma checkIPnMask_checkIP6nMask_prefix_lengths_witness :
  checkIPnMask Env.libc_inet_pton "192.168.1.0/24" = Return true
  /\ checkIPnMask Env.libc_inet_pton "192.168.1.0/255.255.255.0" = Return false
  /\ checkIP6nMask Env.libc_inet_pton "::1/128" = Return true
  /\ checkIP6nMask Env.libc_inet_pton "::1/129" = Return false
  /\ checkIPnMask Env.libc_inet_pton "garbage/24" <> Return true
  /\ checkIPnMask Env.libc_inet_pton "192.168.1.0/abc" <> Return true
  /\ checkIP6nMask Env.libc_inet_pton "::1/-5" <> Return true.
Proof.
  pose proof (checkIPnMask_checkIP6nMask_prefix_lengths Env.libc_inet_pton)
    as (H4 & H4dot & H6 & H6long & _ & _ & Hexact4 & Hexact6).
  split; [|split; [|split; [|split; [|split; [|split]]]]];
    [| | | | intros H; apply Hexact4 in H; destruct H as [H _]; discriminate H
     | intros H; apply Hexact4 in H; destruct H as [_ [H|(i & H & _)]];
       discriminate H
     | intros H; apply Hexact6 in H; destruct H as [_ [H|(i & H & Hi)]];
       [discriminate H | injection H as <-; lia]].
  - apply (proj2 (H4 "192.168.1.0" eq_refl eq_refl) 24). lia.
  - apply (proj2 (H4dot "192.168.1.0/255.255.255.0" "192.168.1.0"
                    "255.255.255.0" eq_refl eq_refl)).
    reflexivity.
  - apply (proj2 (H6 "::1" eq_refl eq_refl) 128). lia.
  - apply (proj2 (H6long "::1/129" "::1" "129" 129 eq_refl eq_refl
                    ltac:(lia))).
    reflexivity.
Defined.

Lemma checkInterface_valid_names_witness :
  checkInterface "wlan0" = true /\ checkInterface "0123456789abcdefg" = false.
Proof.
  split.
  - apply (proj1 checkInterface_valid_names "wlan0").
    repeat split; try reflexivity; [discriminate | simpl; lia].
  - apply (proj2 (proj2 (proj2 checkInterface_valid_names))). reflexivity.
Defined.

Lemma getPortRange_pair_increasing_witness :
  getPortRange Env.getservbyname (PStr "10-5") = RTuple (Tuple2 5 10)
  /\ 5 < 10
  /\ check_port Env.getservbyname (PStr "10-5") = Return (true, []).
Proof.
  assert (H : getPortRange Env.getservbyname (PStr "10-5") = RTuple (Tuple2 5 10))
    by reflexivity.
  pose proof (getPortRange_pair_increasing Env.getservbyname (PStr "10-5"))
    as (Hlt & _ & Hok).
  split; [exact H|]. split; [exact (Hlt 5 10 H) | exact (Hok 5 10 H)].
Defined.

Lemma getPortID_negative_int_unchanged_witness :
  -1 < 0
  /\ getPortID Env.getservbyname (PInt (-1)) = -1
  /\ getPortID Env.getservbyname (PStr "no-such-service")
     = getPortID Env.getservbyname (PInt (-1)).
Proof.
  assert (Hneg : -1 < 0) by lia.
  pose proof (getPortID_negative_int_unchanged Env.getservbyname (-1) Hneg)
    as (Hid & Hnotfound & _).
  split; [exact Hneg|]. split; [exact Hid|].
  apply (Hnotfound eq_refl).
  intros id H. inversion H; discriminate.
Defined.

Lemma longest_shortcut_is_4 : longest Env.SHORTCUTS 4.
Proof.
  split.
  - exists "FORWARD_IN", "FWDI". split; [simpl; auto 10 | reflexivity].
  - intros k v H. simpl in H.
    repeat (destruct H as [H|H]; [inversion H; subst; simpl; lia|]).
    contradiction.
Defined.

Lemma max_zone_name_len_value_witness :
  longest Env.SHORTCUTS 4 /\ max_zone_name_len Env.SHORTCUTS = Return 17.
Proof.
  split; [exact longest_shortcut_is_4|].
  exact (proj2 (max_zone_name_len_value Env.SHORTCUTS 4 longest_shortcut_is_4)
           eq_refl).
Defined.

(** * Further properties of the validators *)

(** ** White space around a token *)

Lemma rstrip_head (c : ascii) (s : string) :
  Py.isspace c = false -> exists r, Py.rstrip (String c s) = String c r.
Proof.
  intros Hc. cbn [Py.rstrip].
  destruct (Py.rstrip s) as [|d r]; [rewrite Hc|]; eauto.
Qed.

Lemma rstrip_idempotent (s : string) : Py.rstrip (Py.rstrip s) = Py.rstrip s.
Proof.
  induction s as [|c s IH]; [reflexivity|].
  cbn [Py.rstrip]. destruct (Py.rstrip s) as [|d r] eqn:E.
  - destruct (Py.isspace c) eqn:Hc; [reflexivity|].
    cbn [Py.rstrip]. now rewrite Hc.
  - cbn [Py.rstrip]. cbn [Py.rstrip] in IH.
    destruct (Py.rstrip r) as [|e r'] eqn:Er.
    + destruct (Py.isspace d); [discriminate IH | now rewrite IH].
    + now rewrite IH.
Qed.

Lemma lstrip_cases (s : string) :
  Py.lstrip s = EmptyString
  \/ exists c t, Py.lstrip s = String c t /\ Py.isspace c = false.
Proof.
  induction s as [|c s IH]; [now left|].
  cbn [Py.lstrip]. destruct (Py.isspace c) eqn:Hc; [exact IH|].
  right. now exists c, s.
Qed.

Lemma strip_idempotent (s : string) : Py.strip (Py.strip s) = Py.strip s.
Proof.
  unfold Py.strip.
  destruct (lstrip_cases s) as [->|(c & t & -> & Hc)]; [reflexivity|].
  destruct (rstrip_head c t Hc) as [r Hr].
  rewrite Hr, (lstrip_head c r Hc), <- Hr.
  apply rstrip_idempotent.
Qed.

Lemma token_text_strip (s : string) : token_text (Py.strip s) = token_text s.
Proof.
  destruct s as [|c s]; [reflexivity|].
  cbn [token_text].
  destruct (Py.strip (String c s)) as [|d t] eqn:E; [reflexivity|].
  cbn [token_text]. rewrite <- E. apply strip_idempotent.
Qed.

Section PortInvariants.

Variable db : string -> option Z.

(** X4. White space around a token does not matter to [getPortID]. *)
Theorem getPortID_strip (s : string) :
  getPortID db (PStr (Py.strip s)) = getPortID db (PStr s).
Proof. now rewrite !getPortID_str, token_text_strip. Qed.

Lemma getPortID_le (port : port_arg) : getPortID db port <= 65535.
Proof.
  assert (Hcheck : forall id, (if id >? 65535 then -2 else id) <= 65535).
  { intros id. destruct (Z.gtb_spec id 65535); lia. }
  destruct port as [n|s]; [rewrite getPortID_int; apply Hcheck|].
  rewrite getPortID_str.
  destruct (Py.int (token_text s)); [apply Hcheck|].
  destruct (db (token_text s)); [apply Hcheck | lia].
Qed.

Lemma getPortRange_step_valid_ids (splits : list string) (i : nat)
    (matched : list port_tuple) :
  Forall valid_ids matched ->
  Forall valid_ids (fst (getPortRange_step db splits i matched)).
Proof.
  intros Hm. unfold getPortRange_step.
  set (id1 := getPortID db (PStr (Py.join "-" (firstn i splits)))).
  set (id2 := getPortID db (PStr (Py.join "-" (skipn i splits)))).
  assert (H1 : id1 <= 65535) by apply getPortID_le.
  assert (H2 : id2 <= 65535) by apply getPortID_le.
  destruct (0 <? String.length (Py.join "-" (skipn i splits)))%nat.
  - destruct (Z.geb_spec id1 0) as [P1|]; [|exact Hm].
    destruct (Z.geb_spec id2 0) as [P2|]; [|exact Hm].
    cbn [andb].
    destruct (id1 <? id2); [|destruct (id1 >? id2)]; cbn [fst];
      apply Forall_app; (split; [exact Hm|]);
      repeat constructor; lia.
  - destruct (Z.geb_spec id1 0) as [P1|]; [|exact Hm].
    cbn [fst]. apply Forall_app; split; [exact Hm|].
    repeat constructor; lia.
Qed.

Lemma getPortRange_loop_valid_ids (splits : list string) (i : nat) :
  forall matched,
    Forall valid_ids matched ->
    Forall valid_ids (getPortRange_loop db splits i matched).
Proof.
  induction i as [|i IH]; intros matched Hm; cbn [getPortRange_loop];
    [exact Hm|].
  pose proof (getPortRange_step_valid_ids splits (S i) matched Hm) as Hstep.
  destruct (getPortRange_step db splits (S i) matched) as [matched' stop].
  cbn [fst] in Hstep. destruct stop; [exact Hstep | now apply IH].
Qed.

Lemma getPortRange_valid_ids (ports : port_arg) (t : port_tuple) :
  getPortRange db ports = RTuple t -> valid_ids t.
Proof.
  intros H. destruct ports as [n|s]; unfold getPortRange in H.
  - pose proof (getPortID_le (PInt n)) as Hle.
    remember (getPortID db (PInt n)) as id eqn:Eid. clear Eid.
    destruct (Z.geb_spec id 0) as [Hge|]; [|discriminate].
    injection H as <-. unfold valid_ids. lia.
  - pose proof (getPortRange_loop_valid_ids (Py.split "-" s)
                  (List.length (Py.split "-" s)) [] (Forall_nil _)) as Hall.
    destruct (getPortRange_loop db _ _ _) as [|t0 [|t1 rest]];
      try discriminate.
    injection H as <-. now inversion Hall.
Qed.

(** X1. [getPortID] never answers more than 65535, and every id of a
    tuple returned by [getPortRange] lies in 0..65535, whatever the
    service database holds. *)
Theorem getPortRange_ids_in_range (ports : port_arg) :
  getPortID db ports <= 65535
  /\ (forall t, getPortRange db ports = RTuple t -> valid_ids t).
Proof.
  split; [apply getPortID_le | apply getPortRange_valid_ids].
Qed.

(** A string without hyphen is one token. *)
Lemma getPortRange_single_token (s : string) :
  Py.contains "-" s = false ->
  getPortRange db (PStr s) =
    if getPortID db (PStr s) >=? 0 then RTuple (Tuple1 (getPortID db (PStr s)))
    else RInt (-1).
Proof.
  intros Hs. unfold getPortRange. rewrite (split_no_sep _ _ Hs).
  cbn [List.length getPortRange_loop]. unfold getPortRange_step.
  change (Py.join "-" (firstn 1 [s])) with s.
  change (Py.join "-" (skipn 1 [s])) with EmptyString.
  cbn [String.length Nat.ltb Nat.leb].
  destruct (getPortID db (PStr s) >=? 0); reflexivity.
Qed.

Lemma getPortID_too_big_text (n : Z) :
  65535 < n -> getPortID db (PStr (Py.str n)) = -2.
Proof.
  intros Hn.
  destruct (str_canonical n ltac:(lia)) as (Hne & Hall & Hval & _).
  rewrite getPortID_str, (token_text_no_space _ (digits_no_space _ Hall)).
  rewrite (int_all_digits _ Hne Hall), Hval.
  destruct (Z.gtb_spec n 65535); [reflexivity | lia].
Qed.

(** X2. A port above 65535 is reported as too big (-2) when it is given
    as an [int], but as invalid (-1) when it is given as text; [check_port]
    logs accordingly. *)
Theorem getPortRange_too_big (n : Z) :
  65535 < n ->
  getPortRange db (PInt n) = RInt (-2)
  /\ getPortRange db (PStr (Py.str n)) = RInt (-1)
  /\ check_port db (PInt n) = Return (false, [PortTooBig (PInt n)])
  /\ check_port db (PStr (Py.str n))
     = Return (false, [PortInvalid (PStr (Py.str n))]).
Proof.
  intros Hn.
  assert (E1 : getPortRange db (PInt n) = RInt (-2)).
  { unfold getPortRange. rewrite getPortID_int.
    destruct (Z.gtb_spec n 65535); [reflexivity | lia]. }
  assert (E2 : getPortRange db (PStr (Py.str n)) = RInt (-1)).
  { destruct (str_canonical n ltac:(lia)) as (_ & Hall & _ & _).
    rewrite (getPortRange_single_token _ (digits_no_hyphen _ Hall)).
    now rewrite (getPortID_too_big_text n Hn). }
  repeat split; try assumption; unfold check_port.
  - now rewrite E1.
  - now rewrite E2.
Qed.

(** X3. A string that [split("-")] cuts into at most two parts, that is
    one with at most one hyphen, is never reported as ambiguous. *)
Theorem getPortRange_one_hyphen_not_ambiguous (s : string) :
  (List.length (Py.split "-" s) <= 2)%nat ->
  getPortRange db (PStr s) <> RNone.
Proof.
  intros Hlen. unfold getPortRange.
  destruct (Py.split "-" s) as [|a [|b [|c rest]]];
    [discriminate| | |cbn [List.length] in Hlen; lia].
  - cbn [List.length getPortRange_loop]. unfold getPortRange_step.
    cbn [firstn skipn Py.join String.concat String.length Nat.ltb Nat.leb
         Nat.eqb List.length].
    repeat match goal with
           | |- context [if ?c then _ else _] => destruct c
           end; cbn; discriminate.
  - cbn [List.length getPortRange_loop]. unfold getPortRange_step.
    cbn [firstn skipn Py.join String.concat String.length Nat.ltb Nat.leb
         Nat.eqb List.length].
    repeat match goal with
           | |- context [if ?c then _ else _] => destruct c
           end; cbn; discriminate.
Qed.

End PortInvariants.

(** ** The verdict of [check_port] *)

Section CheckPort.

Variable db : string -> option Z.

(** X5. [check_port] answers [True] exactly when [getPortRange] returns a
    tuple, and then it logs nothing. *)
Theorem check_port_true_iff (port : port_arg) :
  ((exists t, getPortRange db port = RTuple t)
   <-> check_port db port = Return (true, []))
  /\ (forall log, check_port db port = Return (true, log) -> log = []).
Proof.
  unfold check_port.
  destruct (getPortRange db port) as [n| |t] eqn:E.
  - split; [split|].
    + intros [t Ht]. discriminate Ht.
    + destruct (n =? -2); [|destruct (n =? -1)]; discriminate.
    + intros log. destruct (n =? -2); [|destruct (n =? -1)]; discriminate.
  - split; [split|].
    + intros [t Ht]. discriminate Ht.
    + discriminate.
    + intros log. discriminate.
  - pose proof (getPortRange_ordered db port t E) as Hord.
    assert (Hok : (tuple_len t =? 2)
                  && match t with
                     | Tuple1 _ => false
                     | Tuple2 id1 id2 => id1 >=? id2
                     end = false).
    { destruct t as [id|id1 id2]; [reflexivity|].
      cbn in Hord. cbn [tuple_len]. destruct (Z.geb_spec id1 id2); [lia|].
      apply andb_false_r. }
    rewrite Hok. split; [split|].
    + reflexivity.
    + intros _. now exists t.
    + intros log H. now inversion H.
Qed.

(** X6. [check_port] on an [int]: 0..65535 passes; above 65535 fails as
    too big; -1 fails as invalid and -2 as too big, the codes being taken
    for verdicts of [getPortRange]; any other negative [int] reaches
    [len] of an [int] and raises [TypeError]. *)
Theorem check_port_int (p : Z) :
  (0 <= p <= 65535 -> check_port db (PInt p) = Return (true, []))
  /\ (65535 < p \/ p = -2 ->
      check_port db (PInt p) = Return (false, [PortTooBig (PInt p)]))
  /\ (p = -1 -> check_port db (PInt p) = Return (false, [PortInvalid (PInt p)]))
  /\ (p < -2 -> check_port db (PInt p) = Raise TypeError).
Proof.
  unfold check_port, getPortRange. rewrite getPortID_int.
  repeat split.
  - intros Hp. destruct (Z.gtb_spec p 65535) as [|_]; [lia|].
    destruct (Z.geb_spec p 0) as [_|]; [reflexivity | lia].
  - intros [Hp| ->]; [|reflexivity].
    destruct (Z.gtb_spec p 65535) as [_|]; [reflexivity | lia].
  - intros ->. reflexivity.
  - intros Hp. destruct (Z.gtb_spec p 65535) as [|_]; [lia|].
    destruct (Z.geb_spec p 0) as [|_]; [lia|].
    destruct (Z.eqb_spec p (-2)) as [|_]; [lia|].
    destruct (Z.eqb_spec p (-1)) as [|_]; [lia | reflexivity].
Qed.

End CheckPort.

(** ** What [portStr] writes *)

Section PortStr.

Variable db : string -> option Z.

Lemma canonical_str (s : string) (n : Z) : canonical_decimal s n -> s = Py.str n.
Proof. intros H. now apply canonical_is_str in H. Qed.

(** X7. [portStr] puts a range written with two numerals in order: the
    lower id, the delimiter, the higher id; two equal numerals give that
    one numeral. *)
Theorem portStr_numeric_range (sa sb delimiter : string) (a b : Z) :
  canonical_decimal sa a -> canonical_decimal sb b ->
  a <= 65535 -> b <= 65535 ->
  db (sa ++ "-" ++ sb) = None ->
  (a <> b ->
   portStr db (PStr (sa ++ "-" ++ sb)) delimiter
   = Return (Some (Py.str (Z.min a b) ++ delimiter ++ Py.str (Z.max a b))))
  /\ (a = b ->
      portStr db (PStr (sa ++ "-" ++ sb)) delimiter = Return (Some sa)).
Proof.
  intros Ha Hb Hamax Hbmax Hdb.
  pose proof (canonical_str sa a Ha) as Esa.
  destruct Ha as (Hane & Hadig & Haval & _), Hb as (Hbne & Hbdig & Hbval & _).
  change (sa ++ "-" ++ sb) with (sa ++ String "-" sb) in *.
  assert (Hnonempty : forall d,
             portStr db (PStr (sa ++ String "-" sb)) d =
             match getPortRange db (PStr (sa ++ String "-" sb)) with
             | RInt n => if n <? 0 then Return None else Raise TypeError
             | RNone => Raise TypeError
             | RTuple (Tuple1 id) => Return (Some (Py.str id))
             | RTuple (Tuple2 id1 id2) =>
                 Return (Some (Py.str id1 ++ d ++ Py.str id2))
             end).
  { intros d. destruct sa as [|c sa']; [contradiction | reflexivity]. }
  rewrite Hnonempty.
  rewrite (getPortRange_digits db _ _ Hane Hbne Hadig Hbdig
             ltac:(lia) ltac:(lia) Hdb).
  rewrite Haval, Hbval. split.
  - intros Hne. destruct (Z.ltb_spec a b) as [Hlt|Hge].
    + now rewrite Z.min_l, Z.max_r by lia.
    + destruct (Z.gtb_spec a b) as [Hgt|]; [|lia].
      now rewrite Z.min_r, Z.max_l by lia.
  - intros <-. rewrite Z.ltb_irrefl.
    destruct (Z.gtb_spec a a) as [|_]; [lia|]. now rewrite <- Esa.
Qed.

Lemma getPortRange_str_single (x : Z) :
  0 <= x <= 65535 -> getPortRange db (PStr (Py.str x)) = RTuple (Tuple1 x).
Proof.
  intros Hx.
  pose proof (getPortID_str_of_int db x Hx) as Hid.
  rewrite <- Hid at 2. apply getPortRange_full_match. lia.
Qed.

Lemma getPortRange_str_pair (x y : Z) :
  0 <= x -> x < y -> y <= 65535 ->
  db (Py.str x ++ "-" ++ Py.str y) = None ->
  getPortRange db (PStr (Py.str x ++ "-" ++ Py.str y)) = RTuple (Tuple2 x y).
Proof.
  intros Hx Hxy Hy Hdb.
  destruct (str_canonical x Hx) as (Hxne & Hxdig & Hxval & _).
  destruct (str_canonical y ltac:(lia)) as (Hyne & Hydig & Hyval & _).
  change (Py.str x ++ "-" ++ Py.str y)
    with (Py.str x ++ String "-" (Py.str y)) in *.
  rewrite (getPortRange_digits db _ _ Hxne Hyne Hxdig Hydig
             ltac:(lia) ltac:(lia) Hdb).
  rewrite Hxval, Hyval.
  destruct (Z.ltb_spec x y); [reflexivity | lia].
Qed.

(** X8. When [getPortRange] accepts a port, the text [portStr] writes for
    it with ["-"] as delimiter is read back by [getPortRange] as the same
    tuple, provided that text is not itself a name of the service
    database. *)
Theorem portStr_getPortRange_roundtrip (port : port_arg) (t : port_tuple) :
  port <> PStr "" ->
  getPortRange db port = RTuple t ->
  exists text,
    portStr db port "-" = Return (Some text)
    /\ (db text = None -> getPortRange db (PStr text) = RTuple t).
Proof.
  intros Hne H.
  pose proof (getPortRange_valid_ids db port t H) as Hids.
  pose proof (getPortRange_ordered db port t H) as Hord.
  assert (E : portStr db port "-" =
              match t with
              | Tuple1 id => Return (Some (Py.str id))
              | Tuple2 id1 id2 => Return (Some (Py.str id1 ++ "-" ++ Py.str id2))
              end).
  { destruct port as [n|[|c s]]; [| now contradiction Hne |];
      unfold portStr; now rewrite H. }
  destruct t as [x|x y]; cbn [valid_ids ordered] in Hids, Hord.
  - exists (Py.str x). split; [exact E|]. intros _.
    now apply getPortRange_str_single.
  - exists (Py.str x ++ "-" ++ Py.str y). split; [exact E|]. intros Hdb.
    apply getPortRange_str_pair; lia || assumption.
Qed.

(** X23. [portStr] never raises for an [int]: a port in 0..65535 gives
    its numeral, any other [int] gives [None]. *)
Theorem portStr_int (p : Z) (delimiter : string) :
  portStr db (PInt p) delimiter
  = Return (if (0 <=? p) && (p <=? 65535) then Some (Py.str p) else None).
Proof.
  unfold portStr, getPortRange. rewrite getPortID_int.
  destruct (Z.leb_spec 0 p) as [Hlo|Hlo]; destruct (Z.leb_spec p 65535) as [Hhi|Hhi];
    cbn [andb]; destruct (Z.gtb_spec p 65535) as [Hgt|Hle]; try lia.
  - destruct (Z.geb_spec p 0) as [_|]; [reflexivity | lia].
  - reflexivity.
  - destruct (Z.geb_spec p 0) as [|_]; [lia|].
    destruct (Z.ltb_spec p 0) as [_|]; [reflexivity | lia].
Qed.

End PortStr.

(** ** Numbers and names as text *)

Lemma is_letter_code (c : ascii) :
  is_letter c = true <->
  65 <= Py.code c <= 90 \/ 97 <= Py.code c <= 122.
Proof.
  unfold is_letter. rewrite orb_true_iff, !andb_true_iff, !Z.leb_le.
  reflexivity.
Qed.

Lemma letter_not_char (c d : ascii) :
  is_letter c = true -> is_letter d = false -> Ascii.eqb c d = false.
Proof.
  intros Hc Hd. destruct (Ascii.eqb_spec c d) as [->|]; congruence.
Qed.

Lemma letter_not_digit (c : ascii) : is_letter c = true -> Py.isdigit c = false.
Proof.
  rewrite is_letter_code. intros Hc.
  destruct (Py.isdigit c) eqn:Hd; [|reflexivity].
  apply isdigit_code in Hd. lia.
Qed.

Lemma letter_not_int_space (c : ascii) :
  is_letter c = true -> Py.int_isspace c = false.
Proof.
  rewrite is_letter_code. unfold Py.int_isspace. intros Hc.
  repeat (apply orb_false_intro);
    try (apply andb_false_iff; rewrite !Z.leb_gt; lia);
    apply Z.eqb_neq; lia.
Qed.

(** A text that starts with a letter is no number, whatever follows. *)
Lemma int_letter_head (c : ascii) (s : string) :
  is_letter c = true -> Py.int (String c s) = None.
Proof.
  intros Hc. unfold Py.int, Py.int_strip.
  pose proof (letter_not_int_space c Hc) as Hns.
  rewrite (int_lskip_head c s Hns).
  destruct (int_rskip_head c s Hns) as [r ->].
  rewrite !(letter_not_char c) by (assumption || reflexivity).
  unfold Py.int_unsigned. now rewrite (letter_not_digit c Hc).
Qed.

(** A text without white space that starts with a letter is no number. *)
Lemma int_name (c : ascii) (s : string) :
  is_letter c = true -> no_space (String c s) = true ->
  Py.int (String c s) = None.
Proof.
  intros Hc Hns. unfold Py.int.
  rewrite (int_strip_no_space _ Hns).
  rewrite !(letter_not_char c) by (assumption || reflexivity).
  unfold Py.int_unsigned. now rewrite (letter_not_digit c Hc).
Qed.

Lemma str_no_dot (n : Z) : Py.contains "." (Py.str n) = false.
Proof.
  destruct (Z.lt_ge_cases n 0) as [Hneg|Hpos].
  - rewrite (str_negative n Hneg). cbn [Py.contains].
    destruct (str_canonical (- n) ltac:(lia)) as (_ & Hall & _ & _).
    now rewrite (digits_no_dot _ Hall).
  - destruct (str_canonical n Hpos) as (_ & Hall & _ & _).
    now apply digits_no_dot.
Qed.

Lemma str_not_empty (n : Z) : Py.str n <> EmptyString.
Proof.
  destruct (Z.lt_ge_cases n 0) as [Hneg|Hpos].
  - rewrite (str_negative n Hneg). discriminate.
  - now destruct (str_canonical n Hpos).
Qed.

Section Lookups.

Variable getservbyport : Z -> string -> option string.
Variable getprotobyname : string -> bool.

(** X9. [getServiceName] takes the port as a number only: the numeral of
    [n] gives what the [int] [n] gives, and a text that starts with a
    letter, such as a service name, gives [None] whatever the database
    holds. *)
Theorem getServiceName_text (proto : string) :
  (forall n, getServiceName getservbyport (PStr (Py.str n)) proto
             = getServiceName getservbyport (PInt n) proto)
  /\ (forall c s, is_letter c = true -> no_space (String c s) = true ->
                  getServiceName getservbyport (PStr (String c s)) proto = None).
Proof.
  split.
  - intros n. unfold getServiceName, int_arg. now rewrite int_str_any.
  - intros c s Hc Hns. unfold getServiceName, int_arg.
    now rewrite (int_name c s Hc Hns).
Qed.

(** X10. [checkProtocol] accepts the numeral of [n] exactly when
    0 <= n <= 255, without asking the protocol database, also for a
    negative [n]; a text that starts with a letter is accepted exactly
    when the protocol database knows it. *)
Theorem checkProtocol_text :
  (forall n, checkProtocol getprotobyname (PStr (Py.str n)) = true
             <-> 0 <= n <= 255)
  /\ (forall c s, is_letter c = true -> no_space (String c s) = true ->
                  checkProtocol getprotobyname (PStr (String c s))
                  = getprotobyname (String c s)).
Proof.
  split.
  - intros n. unfold checkProtocol, int_arg. rewrite int_str_any.
    destruct (Z.ltb_spec n 0); destruct (Z.gtb_spec n 255); cbn [orb];
      split; intros; try lia; try discriminate; reflexivity.
  - intros c s Hc Hns. unfold checkProtocol, int_arg.
    now rewrite (int_name c s Hc Hns).
Qed.

End Lookups.

(** X11. [checkUid] gives the same answer for the numeral of [n] and for
    the [int] [n], namely whether 0 <= n <= 2147483647; a text that
    starts with a letter is refused. *)
Theorem checkUid_text (n : Z) :
  checkUid (PStr (Py.str n)) = checkUid (PInt n)
  /\ (checkUid (PInt n) = true <-> 0 <= n <= 2147483647)
  /\ (forall c s, is_letter c = true ->
                  checkUid (PStr (String c s)) = false).
Proof.
  split; [|split].
  - unfold checkUid, int_arg. now rewrite int_str_any.
  - unfold checkUid, int_arg.
    change (2 ^ 31 - 1) with 2147483647.
    destruct (Z.geb_spec n 0); destruct (Z.leb_spec n 2147483647); cbn [andb];
      split; intros; try lia; try discriminate; reflexivity.
  - intros c s Hc. unfold checkUid, int_arg.
    now rewrite (int_letter_head c s Hc).
Qed.

(** ** Hardware addresses *)

Lemma contains_hexdigits (c : ascii) :
  Py.contains c Py.hexdigits = is_hexdigit c.
Proof. destruct c as [[] [] [] [] [] [] [] []]; reflexivity. Qed.

Lemma hex_pair_inv (g : string) :
  hex_pair g = true ->
  exists a b, g = String a (String b EmptyString)
              /\ is_hexdigit a = true /\ is_hexdigit b = true.
Proof.
  unfold hex_pair. intros H. apply andb_true_iff in H. destruct H as [Hlen Hall].
  destruct g as [|a [|b [|c g]]]; try discriminate Hlen.
  cbn [all_chars] in Hall. rewrite !andb_true_iff in Hall.
  exists a, b. tauto.
Qed.

Ltac split_andb H :=
  repeat match type of H with
         | (_ && _ = true) =>
             let H1 := fresh "Hc" in
             apply andb_true_iff in H; destruct H as [H1 H]
         end.

(** X12. [check_mac] accepts exactly the texts made of six groups of two
    hexadecimal digits, in either case, joined by colons. *)
Theorem check_mac_true_iff (mac : string) :
  check_mac mac = true <->
  exists g1 g2 g3 g4 g5 g6,
    mac = Py.join ":" [g1; g2; g3; g4; g5; g6]
    /\ forallb hex_pair [g1; g2; g3; g4; g5; g6] = true.
Proof.
  split.
  - unfold check_mac. intros H.
    destruct (Nat.eqb_spec (String.length mac) (12 + 5)) as [Hlen|];
      [|discriminate H].
    destruct (forallb (char_at_is mac (fun c => Ascii.eqb c ":")) _) eqn:Hcolon;
      [|discriminate H].
    destruct (forallb (char_at_is mac (fun c => Py.contains c Py.hexdigits)) _)
      eqn:Hhex; [|discriminate H].
    clear H.
    destruct mac as
      [|c0 [|c1 [|c2 [|c3 [|c4 [|c5 [|c6 [|c7 [|c8 [|c9 [|c10 [|c11 [|c12 [|c13 [|c14 [|c15 [|c16 [|c17 mac]]]]]]]]]]]]]]]]]];
      try discriminate Hlen.
    clear Hlen.
    cbn [forallb char_at_is String.get] in Hcolon, Hhex.
    rewrite !contains_hexdigits in Hhex.
    split_andb Hcolon. split_andb Hhex.
    repeat match goal with
           | E : Ascii.eqb _ ":" = true |- _ => apply Ascii.eqb_eq in E; subst
           end.
    exists (String c0 (String c1 "")), (String c3 (String c4 "")),
      (String c6 (String c7 "")), (String c9 (String c10 "")),
      (String c12 (String c13 "")), (String c15 (String c16 "")).
    split; [reflexivity|].
    cbn [forallb hex_pair String.length Nat.eqb all_chars andb].
    repeat match goal with
           | E : is_hexdigit _ = true |- _ => rewrite E; clear E
           end.
    reflexivity.
  - intros (g1 & g2 & g3 & g4 & g5 & g6 & -> & Hall).
    cbn [forallb] in Hall. split_andb Hall.
    repeat match goal with
           | E : hex_pair _ = true |- _ =>
               apply hex_pair_inv in E;
               destruct E as (? & ? & -> & ? & ?)
           end.
    unfold check_mac.
    cbn [Py.join String.concat String.append String.length Nat.eqb Nat.add
         forallb char_at_is String.get].
    rewrite !contains_hexdigits.
    repeat match goal with
           | E : is_hexdigit _ = true |- _ => rewrite E; clear E
           end.
    reflexivity.
Qed.

(** ** Removing duplicates *)

Section UniqifyProperties.

Variable A : Type.
Variable eqb : A -> A -> bool.

(** [eqb] is the equality of the items, as [==] is for strings and
    numbers. *)
Hypothesis eqb_eq : forall x y, eqb x y = true <-> x = y.

Lemma item_eqb_refl (x : A) : eqb x x = true.
Proof. now apply eqb_eq. Qed.

Lemma item_eqb_sym (x y : A) : eqb x y = eqb y x.
Proof.
  destruct (eqb x y) eqn:E1, (eqb y x) eqn:E2; try reflexivity.
  - apply eqb_eq in E1. subst. now rewrite item_eqb_refl in E2.
  - apply eqb_eq in E2. subst. now rewrite item_eqb_refl in E1.
Qed.

Lemma existsb_eqb_In (x : A) (l : list A) :
  existsb (fun y => eqb y x) l = true <-> In x l.
Proof.
  rewrite existsb_exists. split.
  - intros (y & Hin & Hy). apply eqb_eq in Hy. now subst.
  - intros Hin. exists x. split; [assumption | apply item_eqb_refl].
Qed.

Lemma filter_filter_and (p q : A -> bool) (l : list A) :
  filter p (filter q l) = filter (fun y => q y && p y) l.
Proof.
  induction l as [|x l IH]; [reflexivity|].
  cbn [filter]. destruct (q x); cbn [filter andb]; [|exact IH].
  destruct (p x); now rewrite IH.
Qed.

(** The loop keeps what it has and adds the first occurrences of the
    items it has not got yet. *)
Lemma uniqify_loop_spec (input : list A) :
  forall output,
    uniqify_loop eqb input output =
      (output ++ filter (fun y => negb (existsb (fun z => eqb z y) output))
                        (first_occurrences eqb input))%list.
Proof.
  induction input as [|x input IH]; intros output.
  - cbn. now rewrite app_nil_r.
  - cbn [uniqify_loop first_occurrences filter]. rewrite IH.
    destruct (existsb (fun z => eqb z x) output) eqn:Hx; cbn [negb].
    + f_equal. rewrite filter_filter_and. apply filter_ext_in.
      intros y _. destruct (eqb y x) eqn:Hyx; [|reflexivity].
      apply eqb_eq in Hyx. subst y. now rewrite Hx.
    + rewrite <- app_assoc. cbn [app]. f_equal. f_equal.
      rewrite filter_filter_and. apply filter_ext.
      intros y. rewrite existsb_app. cbn [existsb].
      rewrite orb_false_r, negb_orb, (item_eqb_sym x y). apply andb_comm.
Qed.

Lemma uniqify_first_occurrences (input : list A) :
  uniqify eqb input = first_occurrences eqb input.
Proof.
  unfold uniqify. rewrite uniqify_loop_spec. cbn [app existsb negb].
  induction (first_occurrences eqb input) as [|y l IH]; [reflexivity|].
  cbn [filter]. now rewrite IH.
Qed.

Lemma first_occurrences_In (x : A) (l : list A) :
  In x (first_occurrences eqb l) <-> In x l.
Proof.
  induction l as [|y l IH]; [reflexivity|].
  cbn [first_occurrences In]. rewrite filter_In, IH. split.
  - intros [->|[Hin _]]; auto.
  - intros [->|Hin]; [now left|].
    destruct (eqb x y) eqn:E.
    + apply eqb_eq in E. now left.
    + right. now split.
Qed.

Lemma first_occurrences_NoDup (l : list A) : NoDup (first_occurrences eqb l).
Proof.
  induction l as [|y l IH]; [constructor|].
  cbn [first_occurrences]. constructor.
  - rewrite filter_In. intros [_ H]. now rewrite item_eqb_refl in H.
  - now apply NoDup_filter.
Qed.

Lemma first_occurrences_NoDup_id (l : list A) :
  NoDup l -> first_occurrences eqb l = l.
Proof.
  induction 1 as [|x l Hnotin Hnd IH]; [reflexivity|].
  cbn [first_occurrences]. rewrite IH. f_equal.
  apply forallb_filter_id. apply forallb_forall.
  intros y Hy. destruct (eqb y x) eqn:E; [|reflexivity].
  apply eqb_eq in E. now subst.
Qed.

(** X13. [uniqify] returns a list without duplicates that has exactly the
    items of its input. *)
Theorem uniqify_NoDup_same_items (input : list A) :
  NoDup (uniqify eqb input)
  /\ (forall x, In x (uniqify eqb input) <-> In x input).
Proof.
  rewrite uniqify_first_occurrences. split.
  - apply first_occurrences_NoDup.
  - intros x. apply first_occurrences_In.
Qed.

(** X14. [uniqify] keeps the order of the first occurrences: the first
    item stays in front, followed by the result for the rest without the
    items equal to it. *)
Theorem uniqify_cons (x : A) (input : list A) :
  uniqify eqb (x :: input)
  = x :: filter (fun y => negb (eqb y x)) (uniqify eqb input).
Proof. now rewrite !uniqify_first_occurrences. Qed.

(** X15. [uniqify] changes nothing in a list without duplicates, so
    applying it twice is applying it once. *)
Theorem uniqify_idempotent (input : list A) :
  (NoDup input -> uniqify eqb input = input)
  /\ uniqify eqb (uniqify eqb input) = uniqify eqb input.
Proof.
  split.
  - intros Hnd. rewrite uniqify_first_occurrences.
    now apply first_occurrences_NoDup_id.
  - rewrite !uniqify_first_occurrences.
    apply first_occurrences_NoDup_id, first_occurrences_NoDup.
Qed.

End UniqifyProperties.

(** ** User names, commands and security contexts *)

Lemma bad_user_char_code (c : ascii) :
  negb (bad_user_char c) = user_code_ok c.
Proof. destruct c as [[] [] [] [] [] [] [] []]; reflexivity. Qed.

(** X16. [checkUser] accepts exactly the names of one up to
    [SC_LOGIN_NAME_MAX] characters that are all letters, digits or one of
    [.], [-], [_], [$]. *)
Theorem checkUser_true_iff (SC_LOGIN_NAME_MAX : Z) (user : string) :
  checkUser SC_LOGIN_NAME_MAX user = true <->
  1 <= Z.of_nat (String.length user) <= SC_LOGIN_NAME_MAX
  /\ all_chars user_code_ok user = true.
Proof.
  unfold checkUser.
  assert (E : all_chars (fun c => negb (bad_user_char c)) user
              = all_chars user_code_ok user).
  { induction user as [|c s IH]; [reflexivity|].
    cbn [all_chars]. now rewrite IH, bad_user_char_code. }
  rewrite E.
  destruct (Z.ltb_spec (Z.of_nat (String.length user)) 1) as [Hlt|Hge];
    destruct (Z.gtb_spec (Z.of_nat (String.length user)) SC_LOGIN_NAME_MAX)
      as [Hgt|Hle];
    cbn [orb]; split; try (intros [Hlen _]; lia); try discriminate;
    intros Hall; [split; [lia | exact Hall] | exact (proj2 Hall)].
Qed.

Lemma existsb3_false (command : string) (a b c : ascii) :
  existsb (fun ch => Py.contains ch command) [a; b; c] = false <->
  Py.contains a command = false /\ Py.contains b command = false
  /\ Py.contains c command = false.
Proof. cbn [existsb]. rewrite !orb_false_iff. tauto. Qed.

(** X17. [checkCommand] accepts exactly the texts of at most 1024
    characters that start with ["/"] and contain no ["|"], no newline and
    no NUL; the empty text is refused. *)
Theorem checkCommand_true_iff (command : string) :
  checkCommand command = true <->
  (exists rest, command = String "/" rest)
  /\ (String.length command <= 1024)%nat
  /\ Py.contains "|" command = false
  /\ Py.contains "010" command = false
  /\ Py.contains "000" command = false.
Proof.
  unfold checkCommand.
  destruct command as [|c rest].
  - cbn. split; [discriminate | intros [[r Hr] _]; discriminate Hr].
  - set (command := String c rest).
    assert (Hlen1 : (String.length command <? 1)%nat = false) by reflexivity.
    rewrite Hlen1. cbn [orb].
    destruct (Nat.ltb_spec 1024 (String.length command)) as [Hlong|Hshort].
    + split; [discriminate | intros (_ & Hle & _); lia].
    + destruct (existsb (fun ch => Py.contains ch command) _) eqn:Hex.
      * split; [discriminate|]. intros (_ & _ & H1 & H2 & H3).
        assert (Hf : existsb (fun ch => Py.contains ch command)
                       ["|"; "010"; "000"]%char = false)
          by (apply existsb3_false; auto).
        congruence.
      * apply existsb3_false in Hex. destruct Hex as (H1 & H2 & H3).
        destruct (Ascii.eqb_spec c "/") as [->|Hne]; cbn [negb].
        -- split; [|reflexivity]. intros _.
           split; [now exists rest|]. auto.
        -- split; [discriminate|]. intros [[r Hr] _].
           inversion Hr. contradiction.
Qed.

Lemma suffix_app (k : nat) (a b : string) :
  String.length b = k -> Py.suffix k (a ++ b) = b.
Proof.
  intros <-. unfold Py.suffix. rewrite append_length.
  replace (String.length a + String.length b - String.length b)%nat
    with (String.length a) by lia.
  induction a as [|c a IH]; [now destruct b | exact IH].
Qed.

Lemma split_app_cons (sep : ascii) (a b : string) :
  Py.contains sep a = false ->
  Py.split sep (a ++ String sep EmptyString ++ b) = a :: Py.split sep b.
Proof. intros H. now apply split_app. Qed.

(** X18. [checkContext] accepts [user:role:type:level], and the same
    followed by one more field, when no field contains a colon, the user
    is [root] or ends in [_u], the role ends in [_r], the type ends in
    [_t] and the level is not empty; the fifth field is not looked at. *)
Theorem checkContext_accepts (u r t level : string) (pu pr pt : string) :
  u = "root" \/ u = pu ++ "_u" ->
  r = pr ++ "_r" -> t = pt ++ "_t" ->
  level <> EmptyString ->
  Py.contains ":" u = false -> Py.contains ":" r = false ->
  Py.contains ":" t = false -> Py.contains ":" level = false ->
  checkContext (u ++ ":" ++ r ++ ":" ++ t ++ ":" ++ level) = true
  /\ (forall extra, Py.contains ":" extra = false ->
        checkContext (u ++ ":" ++ r ++ ":" ++ t ++ ":" ++ level ++ ":" ++ extra)
        = true).
Proof.
  intros Hu Hr Ht Hl Cu Cr Ct Cl.
  assert (Su : negb (String.eqb u "root")
               && negb (String.eqb (Py.suffix 2 u) "_u") = false).
  { destruct Hu as [->| ->]; [reflexivity|].
    rewrite (suffix_app 2 pu "_u" eq_refl), String.eqb_refl. apply andb_false_r. }
  assert (Sr : String.eqb (Py.suffix 2 r) "_r" = true).
  { subst r. now rewrite (suffix_app 2 pr "_r" eq_refl). }
  assert (St : String.eqb (Py.suffix 2 t) "_t" = true).
  { subst t. now rewrite (suffix_app 2 pt "_t" eq_refl). }
  assert (Sl : (String.length level <? 1)%nat = false).
  { destruct level; [contradiction | reflexivity]. }
  split.
  - unfold checkContext.
    rewrite !split_app_cons, (split_no_sep ":" level) by assumption.
    cbn [List.length existsb Nat.eqb orb negb nth].
    now rewrite Su, Sr, St, Sl.
  - intros extra Ce. unfold checkContext.
    rewrite !split_app_cons, (split_no_sep ":" extra) by assumption.
    cbn [List.length existsb Nat.eqb orb negb nth].
    now rewrite Su, Sr, St, Sl.
Qed.

(** X19. Conversely, a text [checkContext] accepts is made of four or
    five fields joined by colons: a user that is [root] or ends in [_u],
    a role that ends in [_r], a type that ends in [_t], a level that is
    not empty, and at most one more field. *)
Theorem checkContext_true_fields (context : string) :
  checkContext context = true ->
  exists u r t level rest,
    context = Py.join ":" (u :: r :: t :: level :: rest)
    /\ (List.length rest <= 1)%nat
    /\ (u = "root" \/ Py.suffix 2 u = "_u")
    /\ Py.suffix 2 r = "_r"
    /\ Py.suffix 2 t = "_t"
    /\ level <> EmptyString.
Proof.
  unfold checkContext. intros H.
  pose proof (join_split ":" context) as Hjoin.
  destruct (Py.split ":" context) as [|u [|r [|t [|level rest]]]];
    try discriminate H.
  cbn [nth] in H.
  destruct (existsb (Nat.eqb (List.length (u :: r :: t :: level :: rest))) _)
    eqn:Hcount; [|discriminate H].
  cbn [negb] in H.
  destruct (String.eqb_spec u "root") as [Hroot|Hroot];
    destruct (String.eqb_spec (Py.suffix 2 u) "_u") as [Hu|Hu];
    cbn [negb andb] in H; try discriminate H;
    (destruct (String.eqb_spec (Py.suffix 2 r) "_r") as [Hr|Hr];
       [|discriminate H];
     destruct (String.eqb_spec (Py.suffix 2 t) "_t") as [Ht|Ht];
       [|discriminate H];
     cbn [negb] in H;
     destruct level as [|c level]; [discriminate H|];
     exists u, r, t, (String c level), rest;
     split; [now rewrite Hjoin|];
     split; [|repeat split; auto; discriminate];
     cbn [existsb List.length] in Hcount;
     rewrite !orb_true_iff in Hcount;
     destruct Hcount as [E|[E|E]]; [| |discriminate E];
     apply Nat.eqb_eq in E; cbn [List.length]; lia).
Qed.

(** ** Addresses, prefix lengths and families *)

Section AddressProperties.

Variable libc_inet_pton : address_family -> string -> bool.

Lemma split_mask_trailing_slash (addr : string) :
  Py.contains "/" addr = false ->
  split_mask (addr ++ "/") = (addr, Some EmptyString).
Proof. intros H. apply (split_mask_slash addr EmptyString H). Qed.

Lemma prefix_text (n : Z) :
  exists c m, Py.str n = String c m
              /\ Py.contains "." (String c m) = false
              /\ Py.int (String c m) = Some n.
Proof.
  pose proof (str_not_empty n) as Hne.
  pose proof (str_no_dot n) as Hdot.
  pose proof (int_str_any n) as Hint.
  destruct (Py.str n) as [|c m]; [contradiction|].
  now exists c, m.
Qed.

(** X20. After a valid IPv4 address, ["/"] and the numeral of any integer
    [n] are accepted exactly when 0 <= n <= 32; after a valid IPv6
    address exactly when 0 <= n <= 128; a ["/"] with nothing behind it is
    accepted after either. *)
Theorem checkIPnMask_prefix_iff (addr : string) (n : Z) :
  Py.contains "/" addr = false ->
  (checkIP libc_inet_pton addr = Return true ->
   (checkIPnMask libc_inet_pton (addr ++ "/" ++ Py.str n) = Return true
    <-> 0 <= n <= 32)
   /\ checkIPnMask libc_inet_pton (addr ++ "/") = Return true)
  /\ (checkIP6 libc_inet_pton addr = Return true ->
      (checkIP6nMask libc_inet_pton (addr ++ "/" ++ Py.str n) = Return true
       <-> 0 <= n <= 128)
      /\ checkIP6nMask libc_inet_pton (addr ++ "/") = Return true).
Proof.
  intros Hs.
  destruct (prefix_text n) as (c & m & E & Hdot & Hint).
  split; intros Hok.
  - split.
    + unfold checkIPnMask.
      rewrite (split_mask_slash _ _ Hs), Hok, E. cbn [bind negb].
      rewrite Hdot. cbn [bind]. rewrite Hint.
      destruct (Z.ltb_spec n 0); destruct (Z.gtb_spec n 32); cbn [orb];
        split; intros; try lia; try discriminate; reflexivity.
    + unfold checkIPnMask.
      now rewrite (split_mask_trailing_slash _ Hs), Hok.
  - split.
    + unfold checkIP6nMask.
      rewrite (split_mask_slash _ _ Hs), Hok, E. cbn [bind negb].
      rewrite Hint.
      destruct (Z.ltb_spec n 0); destruct (Z.gtb_spec n 128); cbn [orb];
        split; intros; try lia; try discriminate; reflexivity.
    + unfold checkIP6nMask.
      now rewrite (split_mask_trailing_slash _ Hs), Hok.
Qed.

(** X21. Neither function accepts a text whose part before the first
    ["/"] is not a valid address of its family, whatever the mask. *)
Theorem checkIPnMask_needs_valid_address (ip : string) :
  (checkIPnMask libc_inet_pton ip = Return true ->
   checkIP libc_inet_pton (fst (split_mask ip)) = Return true)
  /\ (checkIP6nMask libc_inet_pton ip = Return true ->
      checkIP6 libc_inet_pton (fst (split_mask ip)) = Return true).
Proof.
  split.
  - unfold checkIPnMask. destruct (split_mask ip) as [addr mask]. cbn [fst].
    destruct (checkIP libc_inet_pton addr) as [[|]|e]; cbn [bind negb];
      [reflexivity | discriminate | discriminate].
  - unfold checkIP6nMask. destruct (split_mask ip) as [addr mask]. cbn [fst].
    destruct (checkIP6 libc_inet_pton addr) as [[|]|e]; cbn [bind negb];
      [reflexivity | discriminate | discriminate].
Qed.

(** X22. An address that [check_single_address] accepts for a family is
    accepted by [check_address] for that family, and both refuse every
    text for a family other than ["ipv4"] and ["ipv6"]. *)
Theorem check_single_address_check_address (ipv source : string) :
  (Py.contains "/" source = false ->
   check_single_address libc_inet_pton ipv source = Return true ->
   check_address libc_inet_pton ipv source = Return true)
  /\ (ipv <> "ipv4" -> ipv <> "ipv6" ->
      check_address libc_inet_pton ipv source = Return false
      /\ check_single_address libc_inet_pton ipv source = Return false).
Proof.
  unfold check_single_address, check_address. split.
  - intros Hs.
    destruct (String.eqb ipv "ipv4"); [now apply checkIPnMask_plain|].
    destruct (String.eqb ipv "ipv6"); [now apply checkIP6nMask_plain|].
    discriminate.
  - intros H4 H6.
    destruct (String.eqb_spec ipv "ipv4"); [contradiction|].
    destruct (String.eqb_spec ipv "ipv6"); [contradiction|].
    split; reflexivity.
Qed.

End AddressProperties.

(** ** The further properties in the reference environment *)

Lemma getPortRange_ids_in_range_witness :
  getPortRange Env.getservbyname (PStr "10-5") = RTuple (Tuple2 5 10)
  /\ valid_ids (Tuple2 5 10)
  /\ getPortID Env.getservbyname (PInt 70000) <= 65535.
Proof.
  assert (H : getPortRange Env.getservbyname (PStr "10-5") = RTuple (Tuple2 5 10))
    by reflexivity.
  split; [exact H|]. split.
  - exact (proj2 (getPortRange_ids_in_range Env.getservbyname (PStr "10-5")) _ H).
  - exact (proj1 (getPortRange_ids_in_range Env.getservbyname (PInt 70000))).
Defined.

Lemma getPortRange_too_big_witness :
  65535 < 70000
  /\ getPortRange Env.getservbyname (PInt 70000) = RInt (-2)
  /\ getPortRange Env.getservbyname (PStr "70000") = RInt (-1).
Proof.
  assert (H : 65535 < 70000) by lia.
  pose proof (getPortRange_too_big Env.getservbyname 70000 H) as (H1 & H2 & _).
  split; [exact H|]. split; [exact H1 | exact H2].
Defined.

Lemma getPortRange_one_hyphen_not_ambiguous_witness :
  (List.length (Py.split "-" "80-90") <= 2)%nat
  /\ getPortRange Env.getservbyname (PStr "80-90") <> RNone.
Proof.
  assert (H : (List.length (Py.split "-" "80-90") <= 2)%nat) by (simpl; lia).
  split; [exact H|].
  exact (getPortRange_one_hyphen_not_ambiguous Env.getservbyname "80-90" H).
Defined.

Lemma check_port_true_iff_witness :
  check_port Env.getservbyname (PStr "http") = Return (true, []).
Proof.
  apply (proj1 (proj1 (check_port_true_iff Env.getservbyname (PStr "http")))).
  exists (Tuple1 80). reflexivity.
Defined.

Lemma check_port_int_witness :
  -5 < -2 /\ check_port Env.getservbyname (PInt (-5)) = Raise TypeError.
Proof.
  assert (H : -5 < -2) by lia.
  split; [exact H|].
  exact (proj2 (proj2 (proj2 (check_port_int Env.getservbyname (-5)))) H).
Defined.

Lemma canonical_8080 : canonical_decimal "8080" 8080.
Proof.
  repeat split; try reflexivity; [discriminate|]. intros t Ht. discriminate Ht.
Defined.

Lemma canonical_443 : canonical_decimal "443" 443.
Proof.
  repeat split; try reflexivity; [discriminate|]. intros t Ht. discriminate Ht.
Defined.

Lemma portStr_numeric_range_witness :
  portStr Env.getservbyname (PStr "8080-443") ":" = Return (Some "443:8080").
Proof.
  assert (Ha : 8080 <= 65535) by lia.
  assert (Hb : 443 <= 65535) by lia.
  assert (Hne : 8080 <> 443) by lia.
  exact (proj1 (portStr_numeric_range Env.getservbyname "8080" "443" ":"
                  8080 443 canonical_8080 canonical_443 Ha Hb eq_refl) Hne).
Defined.

Lemma portStr_getPortRange_roundtrip_witness :
  exists text,
    portStr Env.getservbyname (PStr "10-5") "-" = Return (Some text)
    /\ (Env.getservbyname text = None ->
        getPortRange Env.getservbyname (PStr text) = RTuple (Tuple2 5 10)).
Proof.
  assert (Hne : PStr "10-5" <> PStr "") by discriminate.
  exact (portStr_getPortRange_roundtrip Env.getservbyname (PStr "10-5")
           (Tuple2 5 10) Hne eq_refl).
Defined.

Lemma getServiceName_text_witness :
  getServiceName Env.getservbyport (PStr "http") "tcp" = None
  /\ getServiceName Env.getservbyport (PStr "80") "tcp" = Some "http".
Proof.
  pose proof (getServiceName_text Env.getservbyport "tcp") as [Hnum Hname].
  split.
  - exact (Hname "h"%char "ttp" eq_refl eq_refl).
  - exact (Hnum 80).
Defined.

Lemma checkProtocol_text_witness :
  0 <= 6 <= 255
  /\ checkProtocol Env.getprotobyname (PStr "6") = true
  /\ checkProtocol Env.getprotobyname (PStr "tcp") = true.
Proof.
  assert (H : 0 <= 6 <= 255) by lia.
  pose proof (checkProtocol_text Env.getprotobyname) as [Hnum Hname].
  split; [exact H|]. split.
  - exact (proj2 (Hnum 6) H).
  - exact (Hname "t"%char "cp" eq_refl eq_refl).
Defined.

Lemma checkUid_text_witness :
  0 <= 1000 <= 2147483647
  /\ checkUid (PInt 1000) = true
  /\ checkUid (PStr "1000") = checkUid (PInt 1000)
  /\ checkUid (PStr "my uid") = false.
Proof.
  assert (H : 0 <= 1000 <= 2147483647) by lia.
  pose proof (checkUid_text 1000) as (Hsame & Hrange & Hname).
  split; [exact H|]. split; [exact (proj2 Hrange H)|].
  split; [exact Hsame | exact (Hname "m"%char "y uid" eq_refl)].
Defined.

Lemma check_mac_true_iff_witness : check_mac "00:11:22:aa:BB:ff" = true.
Proof.
  apply (proj2 (check_mac_true_iff "00:11:22:aa:BB:ff")).
  exists "00", "11", "22", "aa", "BB", "ff". split; reflexivity.
Defined.

Lemma uniqify_NoDup_same_items_witness :
  NoDup (uniqify Z.eqb [1; 2; 1; 3; 2])
  /\ (forall x, In x (uniqify Z.eqb [1; 2; 1; 3; 2]) <-> In x [1; 2; 1; 3; 2]).
Proof. exact (uniqify_NoDup_same_items Z Z.eqb Z.eqb_eq [1; 2; 1; 3; 2]). Defined.

Lemma uniqify_cons_witness :
  uniqify Z.eqb [1; 2; 1; 3; 2]
  = 1 :: filter (fun y => negb (y =? 1)) (uniqify Z.eqb [2; 1; 3; 2]).
Proof. exact (uniqify_cons Z Z.eqb Z.eqb_eq 1 [2; 1; 3; 2]). Defined.

Lemma uniqify_idempotent_witness :
  (NoDup [1; 2; 3] -> uniqify Z.eqb [1; 2; 3] = [1; 2; 3])
  /\ uniqify Z.eqb (uniqify Z.eqb [1; 2; 3]) = uniqify Z.eqb [1; 2; 3].
Proof. exact (uniqify_idempotent Z Z.eqb Z.eqb_eq [1; 2; 3]). Defined.

Lemma checkUser_true_iff_witness :
  checkUser Env.SC_LOGIN_NAME_MAX "root" = true.
Proof.
  apply (proj2 (checkUser_true_iff Env.SC_LOGIN_NAME_MAX "root")).
  split; [unfold Env.SC_LOGIN_NAME_MAX; simpl; lia | reflexivity].
Defined.

Lemma checkCommand_true_iff_witness : checkCommand "/bin/true" = true.
Proof.
  apply (proj2 (checkCommand_true_iff "/bin/true")).
  split; [now exists "bin/true"|].
  split; [simpl; lia|]. repeat split; reflexivity.
Defined.

Lemma checkContext_accepts_witness :
  checkContext "system_u:system_r:init_t:s0" = true
  /\ checkContext "system_u:system_r:init_t:s0:c0.c1023" = true.
Proof.
  assert (Hl : "s0" <> "") by discriminate.
  pose proof (checkContext_accepts "system_u" "system_r" "init_t" "s0"
                "system" "system" "init"
                (or_intror eq_refl) eq_refl eq_refl Hl
                eq_refl eq_refl eq_refl eq_refl) as [H4 H5].
  split; [exact H4 | exact (H5 "c0.c1023" eq_refl)].
Defined.

Lemma checkContext_true_fields_witness :
  exists u r t level rest,
    "root:object_r:etc_t:s0" = Py.join ":" (u :: r :: t :: level :: rest)
    /\ (List.length rest <= 1)%nat
    /\ (u = "root" \/ Py.suffix 2 u = "_u")
    /\ Py.suffix 2 r = "_r"
    /\ Py.suffix 2 t = "_t"
    /\ level <> EmptyString.
Proof. exact (checkContext_true_fields "root:object_r:etc_t:s0" eq_refl). Defined.

Lemma checkIPnMask_prefix_iff_witness :
  checkIPnMask Env.libc_inet_pton "10.0.0.0/8" = Return true
  /\ checkIPnMask Env.libc_inet_pton "10.0.0.0/" = Return true
  /\ checkIP6nMask Env.libc_inet_pton "fe80::/64" = Return true.
Proof.
  assert (H8 : 0 <= 8 <= 32) by lia.
  assert (H64 : 0 <= 64 <= 128) by lia.
  pose proof (checkIPnMask_prefix_iff Env.libc_inet_pton "10.0.0.0" 8 eq_refl)
    as [H4 _].
  pose proof (checkIPnMask_prefix_iff Env.libc_inet_pton "fe80::" 64 eq_refl)
    as [_ H6].
  destruct (H4 eq_refl) as [Hiff4 Hempty].
  destruct (H6 eq_refl) as [Hiff6 _].
  split; [exact (proj2 Hiff4 H8)|]. split; [exact Hempty | exact (proj2 Hiff6 H64)].
Defined.

Lemma checkIPnMask_needs_valid_address_witness :
  checkIP Env.libc_inet_pton (fst (split_mask "10.0.0.0/8")) = Return true.
Proof.
  exact (proj1 (checkIPnMask_needs_valid_address Env.libc_inet_pton "10.0.0.0/8")
           eq_refl).
Defined.

Lemma check_single_address_check_address_witness :
  check_address Env.libc_inet_pton "ipv4" "10.0.0.1" = Return true
  /\ check_address Env.libc_inet_pton "ipv5" "10.0.0.1" = Return false.
Proof.
  pose proof (check_single_address_check_address Env.libc_inet_pton
                "ipv4" "10.0.0.1") as [Hsingle _].
  pose proof (check_single_address_check_address Env.libc_inet_pton
                "ipv5" "10.0.0.1") as [_ Hother].
  split; [exact (Hsingle eq_refl eq_refl)|].
  assert (H4 : "ipv5" <> "ipv4") by discriminate.
  assert (H6 : "ipv5" <> "ipv6") by discriminate.
  exact (proj1 (Hother H4 H6)).
Defined.
